(* Shallow embedding of the Go SDK client (client.go, types.go) of
   hackersera-ai-sdk: request construction, the error classifier and the
   background task of ChatCompletionStream, whose channel operations are
   recorded as a trace of events. *)

From Stdlib Require Import String Ascii List ZArith Bool Lia.
From Stdlib Require Import Floats.
Import ListNotations.
Open Scope Z_scope.

(* ------------------------------------------------------------------ *)
(** * Go values *)

Inductive result (A : Type) : Type :=
| Ok (a : A)
| Err (msg : string).
Arguments Ok {A} a.
Arguments Err {A} msg.

(** types.go *)
Module Message.
Record t := { Role : string; Content : string }.
End Message.

Module ChatRequest.
Record t := {
    Model : string;
    Messages : list Message.t;
    Stream : bool;
    MaxTokens : option Z;
    MaxCompletionTokens : option Z;
    Temperature : option float;
    TopP : option float;
    Stop : list string }.
End ChatRequest.

Module Usage.
Record t := { PromptTokens : Z; CompletionTokens : Z; TotalTokens : Z }.
End Usage.

Module Delta.
Record t := { Role : string; Content : string }.
End Delta.

Module ChunkChoice.
Record t := { Index : Z; Delta : Delta.t; FinishReason : option string }.
End ChunkChoice.

Module ChatStreamChunk.
Record t := {
    ID : string;
    Object : string;
    Created : Z;
    Model : string;
    Choices : list ChunkChoice.t;
    Usage : option Usage.t }.
End ChatStreamChunk.

Module ErrorDetail.
Record t := { Message : string; Type_ : string; Param : option string; Code : option string }.
End ErrorDetail.

Module ErrorResponse.
Record t := { Error : ErrorDetail.t }.
End ErrorResponse.

Module APIError.
Record t := { StatusCode : Z; ErrorBody : ErrorResponse.t }.
End APIError.

(** The errors the client produces: [fmt.Errorf("<action>: %w", cause)] and
    [*APIError]. *)
Inductive go_error :=
| Wrapped (action : string) (cause : string)
| ApiErr (e : APIError.t).

(** net/http, as far as the client uses it. [Transport = None] is
    http.DefaultTransport; [Timeout] is in nanoseconds, 0 meaning none. *)
Module HttpClient.
Record t := { Transport : option string; Timeout : Z }.
End HttpClient.

(** [&http.Client{}] *)
Definition zero_http_client : HttpClient.t :=
  {| HttpClient.Transport := None; HttpClient.Timeout := 0 |}.

Definition header := list (string * string).

Module HttpRequest.
Record t := { Method : string; URL : string; Header : header; Body : option string }.
End HttpRequest.

(** A response body as read through its io.Reader: the newline-terminated
    lines (without their '\n'), the bytes after the last '\n', and how the
    reader ends (io.EOF or another error). *)
Inductive read_end := ReadEOF | ReadFail (msg : string).

Module RespBody.
Record t := { Lines : list string; Tail : string; End : read_end }.
End RespBody.

Module Response.
Record t := { StatusCode : Z; Body : RespBody.t }.
End Response.

Module Client.
Record t := { baseURL : string; apiKey : string; httpClient : HttpClient.t }.
End Client.

(* ------------------------------------------------------------------ *)
(** * The strings package *)

Fixpoint has_prefix (s prefix : string) {struct prefix} : bool :=
  match prefix, s with
  | EmptyString, _ => true
  | String p ps, String c cs => Ascii.eqb p c && has_prefix cs ps
  | String _ _, EmptyString => false
  end.

Definition trim_prefix (s prefix : string) : string :=
  if has_prefix s prefix
  then substring (String.length prefix) (String.length s - String.length prefix) s
  else s.

(** [strings.TrimRight(s, "/")] *)
Definition trim_right_slash (s : string) : string :=
  string_of_list_ascii
    (rev (let fix drop l := match l with
                            | "/"%char :: l' => drop l'
                            | _ => l
                            end in drop (rev (list_ascii_of_string s)))).

(** [http.Header.Set] and [http.Header.Get] *)
Definition header_set (k v : string) (h : header) : header :=
  (k, v) :: filter (fun kv => negb (String.eqb (fst kv) k)) h.

Definition header_get (k : string) (h : header) : option string :=
  match find (fun kv => String.eqb (fst kv) k) h with
  | Some (_, v) => Some v
  | None => None
  end.

Definition newline : string := String "010"%char EmptyString.

(* ------------------------------------------------------------------ *)
(** * The client *)

(** [NewClient]: 5 minute timeout, default transport. *)
Definition NewClient (baseURL apiKey : string) : Client.t :=
  {| Client.baseURL := trim_right_slash baseURL;
     Client.apiKey := apiKey;
     Client.httpClient := {| HttpClient.Transport := None;
                             HttpClient.Timeout := 5 * 60 * 1000000000 |} |}.

(** [WithHTTPClient] *)
Definition WithHTTPClient (c : Client.t) (hc : HttpClient.t) : Client.t :=
  {| Client.baseURL := Client.baseURL c;
     Client.apiKey := Client.apiKey c;
     Client.httpClient := hc |}.

(** [setHeaders] *)
Definition setHeaders (c : Client.t) (r : HttpRequest.t) : HttpRequest.t :=
  let h := header_set "Content-Type" "application/json" (HttpRequest.Header r) in
  let h := if negb (String.eqb (Client.apiKey c) "")
           then header_set "Authorization" ("Bearer " ++ Client.apiKey c)%string h
           else h in
  {| HttpRequest.Method := HttpRequest.Method r;
     HttpRequest.URL := HttpRequest.URL r;
     HttpRequest.Header := h;
     HttpRequest.Body := HttpRequest.Body r |}.

(** [req.Stream = b] *)
Definition set_stream (b : bool) (r : ChatRequest.t) : ChatRequest.t :=
  {| ChatRequest.Model := ChatRequest.Model r;
     ChatRequest.Messages := ChatRequest.Messages r;
     ChatRequest.Stream := b;
     ChatRequest.MaxTokens := ChatRequest.MaxTokens r;
     ChatRequest.MaxCompletionTokens := ChatRequest.MaxCompletionTokens r;
     ChatRequest.Temperature := ChatRequest.Temperature r;
     ChatRequest.TopP := ChatRequest.TopP r;
     ChatRequest.Stop := ChatRequest.Stop r |}.

(** The library and network behaviour the client depends on, left opaque:
    encoding/json, url parsing inside http.NewRequestWithContext, and the
    round trip [Do] of an http.Client. *)
Record Runtime := {
  json_marshal : ChatRequest.t -> result string;
  json_unmarshal_chunk : string -> option ChatStreamChunk.t;
  json_unmarshal_error : string -> option ErrorResponse.t;
  json_decode_error : string -> option string;
  url_error : string -> option string;
  http_do : HttpClient.t -> HttpRequest.t -> result Response.t }.

(** bufio.Scanner with ScanLines and [scanner.Buffer(make([]byte, 1MiB), 1MiB)]. *)
Definition maxTokenSize : Z := 1024 * 1024.
Definition err_too_long : string := "bufio.Scanner: token too long".

(** [dropCR] of bufio.ScanLines *)
Definition drop_cr (s : string) : string :=
  match rev (list_ascii_of_string s) with
  | c :: r => if Ascii.eqb c "013"%char then string_of_list_ascii (rev r) else s
  | [] => s
  end.

(** The tokens successive [Scan] calls return, and what [scanner.Err()]
    reports once [Scan] returns false ([None] at io.EOF). A terminated line
    needs room for itself and its '\n' in the 1 MiB buffer; the final
    unterminated bytes are returned at end of input when they fit (a tail of
    exactly 1 MiB is taken as too long, the outcome when the reader does
    not report EOF together with the last bytes). *)
Fixpoint scan_tokens (lines : list string) (tail : string) (e : read_end)
  : list string * option string :=
  match lines with
  | l :: ls =>
      if Z.of_nat (String.length l) + 1 <=? maxTokenSize
      then let '(ts, err) := scan_tokens ls tail e in (drop_cr l :: ts, err)
      else ([], Some err_too_long)
  | [] =>
      if Z.of_nat (String.length tail) <? maxTokenSize
      then ((if String.eqb tail "" then [] else [drop_cr tail]),
            match e with ReadEOF => None | ReadFail m => Some m end)
      else ([], Some err_too_long)
  end.

Definition scan (b : RespBody.t) : list string * option string :=
  scan_tokens (RespBody.Lines b) (RespBody.Tail b) (RespBody.End b).

(** [io.ReadAll]: every byte the reader delivered; its error is dropped by
    the only caller, [parseError]. *)
Definition read_all (b : RespBody.t) : string :=
  (String.concat "" (map (fun l => l ++ newline) (RespBody.Lines b)) ++ RespBody.Tail b)%string.

(** Observable actions of a call: round trips, body reads, channel
    operations and the closing of the response body. *)
Inductive event :=
| EvDo (hc : HttpClient.t) (req : HttpRequest.t)
| EvReadAll
| EvScan (more : bool)
| EvSendChunk (c : ChatStreamChunk.t)
| EvCtxDone
| EvSendErr (e : go_error)
| EvCloseBody
| EvCloseErrs
| EvCloseChunks.

(** Which case of [select { case chunks <- chunk: case <-ctx.Done(): }]
    proceeds at each offer. Once the list is exhausted the send proceeds
    (a context that is never cancelled). *)
Inductive select_case := SendWins | DoneWins.

Definition next_select (sel : list select_case) : select_case * list select_case :=
  match sel with
  | [] => (SendWins, [])
  | s :: r => (s, r)
  end.

Inductive loop_exit := LoopReturned | LoopEnded.

Definition cons_ev (e : event) (p : list event * loop_exit) : list event * loop_exit :=
  (e :: fst p, snd p).

(** Outcome of a synchronous call: the decoded body, or the error. *)
Inductive call_result := CallOk (body : string) | CallErr (e : go_error).

(** The synchronous methods of [*Client]; the request types other than
    ChatRequest are opaque DTOs, given by the outcome of [json.Marshal]. *)
Inductive ApiCall :=
| ChatCompletion (req : ChatRequest.t)
| ListModels
| GetModel (modelID : string)
| CreateEmbedding (marshalled : result string)
| Health
| UploadDocument (marshalled : result string)
| UploadDocuments (marshalled : result string)
| ListDocuments
| GetDocument (docID : string)
| DeleteDocument (docID : string)
| Search (marshalled : result string)
| GetUsage
| GetRecentUsage
| GetCacheStats
| Ready.

Section Client.
Variable rt : Runtime.

(** [http.NewRequestWithContext] *)
Definition NewRequestWithContext (method url : string) (body : option string)
  : result HttpRequest.t :=
  match url_error rt url with
  | Some e => Err e
  | None => Ok {| HttpRequest.Method := method; HttpRequest.URL := url;
                  HttpRequest.Header := []; HttpRequest.Body := body |}
  end.

(** [parseError] *)
Definition parseError (resp : Response.t) : APIError.t :=
  let body := read_all (Response.Body resp) in
  match json_unmarshal_error rt body with
  | None =>
      {| APIError.StatusCode := Response.StatusCode resp;
         APIError.ErrorBody :=
           {| ErrorResponse.Error :=
                {| ErrorDetail.Message := body; ErrorDetail.Type_ := "unknown_error";
                   ErrorDetail.Param := None; ErrorDetail.Code := None |} |} |}
  | Some errResp =>
      {| APIError.StatusCode := Response.StatusCode resp;
         APIError.ErrorBody := errResp |}
  end.

(** The [for scanner.Scan()] loop of ChatCompletionStream. *)
Fixpoint stream_loop (toks : list string) (sel : list select_case)
  : list event * loop_exit :=
  match toks with
  | [] => ([EvScan false], LoopEnded)
  | line :: rest =>
      cons_ev (EvScan true)
        (if String.eqb line "" then stream_loop rest sel
         else if negb (has_prefix line "data: ") then stream_loop rest sel
         else
           let data := trim_prefix line "data: " in
           if String.eqb data "[DONE]" then ([], LoopReturned)
           else match json_unmarshal_chunk rt data with
                | None => stream_loop rest sel
                | Some chunk =>
                    match next_select sel with
                    | (DoneWins, _) => ([EvCtxDone], LoopReturned)
                    | (SendWins, sel') => cons_ev (EvSendChunk chunk) (stream_loop rest sel')
                    end
                end)
  end.

(** The deferred [close(errs)] and [close(chunks)], run in LIFO order. *)
Definition close_channels : list event := [EvCloseErrs; EvCloseChunks].

(** The goroutine started by [ChatCompletionStream c ctx req]. *)
Definition ChatCompletionStream (c : Client.t) (req : ChatRequest.t)
  (sel : list select_case) : list event :=
  let req := set_stream true req in
  match json_marshal rt req with
  | Err e => EvSendErr (Wrapped "marshal request" e) :: close_channels
  | Ok body =>
      match NewRequestWithContext "POST" (Client.baseURL c ++ "/v1/chat/completions")%string
              (Some body) with
      | Err e => EvSendErr (Wrapped "create request" e) :: close_channels
      | Ok httpReq =>
          let httpReq := setHeaders c httpReq in
          let streamClient := zero_http_client in
          EvDo streamClient httpReq ::
          match http_do rt streamClient httpReq with
          | Err e => EvSendErr (Wrapped "send request" e) :: close_channels
          | Ok resp =>
              (if negb (Response.StatusCode resp =? 200)
               then [EvReadAll; EvSendErr (ApiErr (parseError resp))]
               else
                 let '(toks, serr) := scan (Response.Body resp) in
                 let '(evs, ex) := stream_loop toks sel in
                 evs ++ match ex, serr with
                        | LoopEnded, Some e => [EvSendErr (Wrapped "read stream" e)]
                        | _, _ => []
                        end)
              ++ EvCloseBody :: close_channels
          end
      end
  end.

(** The shared shape of the synchronous methods: marshal the body (if
    any), build the request, set the headers (all methods but Health and
    Ready), [c.httpClient.Do], check the status, decode. *)
Definition sync_call (c : Client.t) (method path : string)
  (marshalled : option (result string)) (with_headers : bool) (ok_status : list Z)
  : list event * call_result :=
  match marshalled with
  | Some (Err e) => ([], CallErr (Wrapped "marshal request" e))
  | _ =>
      let body := match marshalled with Some (Ok b) => Some b | _ => None end in
      match NewRequestWithContext method (Client.baseURL c ++ path)%string body with
      | Err e => ([], CallErr (Wrapped "create request" e))
      | Ok httpReq =>
          let httpReq := if with_headers then setHeaders c httpReq else httpReq in
          let hc := Client.httpClient c in
          match http_do rt hc httpReq with
          | Err e => ([EvDo hc httpReq], CallErr (Wrapped "send request" e))
          | Ok resp =>
              if existsb (Z.eqb (Response.StatusCode resp)) ok_status
              then
                let data := read_all (Response.Body resp) in
                match json_decode_error rt data with
                | Some e => ([EvDo hc httpReq; EvCloseBody], CallErr (Wrapped "decode response" e))
                | None => ([EvDo hc httpReq; EvCloseBody], CallOk data)
                end
              else ([EvDo hc httpReq; EvReadAll; EvCloseBody], CallErr (ApiErr (parseError resp)))
          end
      end
  end.

(** Each synchronous method, with the method, path, header setting and
    accepted statuses of its Go body. *)
Definition run_call (c : Client.t) (call : ApiCall) : list event * call_result :=
  match call with
  | ChatCompletion req =>
      sync_call c "POST" "/v1/chat/completions" (Some (json_marshal rt (set_stream false req))) true [200]
  | ListModels => sync_call c "GET" "/v1/models" None true [200]
  | GetModel modelID => sync_call c "GET" ("/v1/models/" ++ modelID)%string None true [200]
  | CreateEmbedding b => sync_call c "POST" "/v1/embeddings" (Some b) true [200]
  | Health => sync_call c "GET" "/health" None false [200; 503]
  | UploadDocument b => sync_call c "POST" "/v1/documents" (Some b) true [202; 200]
  | UploadDocuments b => sync_call c "POST" "/v1/documents" (Some b) true [202; 200]
  | ListDocuments => sync_call c "GET" "/v1/documents" None true [200]
  | GetDocument docID => sync_call c "GET" ("/v1/documents/" ++ docID)%string None true [200]
  | DeleteDocument docID => sync_call c "DELETE" ("/v1/documents/" ++ docID)%string None true [200]
  | Search b => sync_call c "POST" "/v1/search" (Some b) true [200]
  | GetUsage => sync_call c "GET" "/v1/usage" None true [200]
  | GetRecentUsage => sync_call c "GET" "/v1/usage/recent" None true [200]
  | GetCacheStats => sync_call c "GET" "/v1/cache/stats" None true [200]
  | Ready => sync_call c "GET" "/ready" None false [200; 503]
  end.

End Client.

(* ------------------------------------------------------------------ *)
(** * Per-call identity headers *)

(** Modelled from the spec: the client-wide identity defaults set by
    [SetUserID], [SetConversationID] and [SetCognitiveDisabled], the
    per-call [RequestOptions] of the [...WithOptions] methods, and the
    header layering they feed (spec section 4.1). These are exercised by the
    repository's tests and usage guide but are not part of client.go. *)
Module RequestOptions.
Record t := { UserID : string; ConversationID : string; CognitiveDisabled : bool }.
End RequestOptions.

Definition no_options : RequestOptions.t :=
  {| RequestOptions.UserID := ""; RequestOptions.ConversationID := "";
     RequestOptions.CognitiveDisabled := false |}.

Definition SetUserID (d : RequestOptions.t) (u : string) : RequestOptions.t :=
  {| RequestOptions.UserID := u; RequestOptions.ConversationID := RequestOptions.ConversationID d;
     RequestOptions.CognitiveDisabled := RequestOptions.CognitiveDisabled d |}.

Definition SetConversationID (d : RequestOptions.t) (cid : string) : RequestOptions.t :=
  {| RequestOptions.UserID := RequestOptions.UserID d; RequestOptions.ConversationID := cid;
     RequestOptions.CognitiveDisabled := RequestOptions.CognitiveDisabled d |}.

(** Modelled from the spec: override, else default, else absent. *)
Definition resolve (override default : string) : string :=
  if String.eqb override "" then default else override.

Definition set_if_nonempty (k v : string) (h : header) : header :=
  if String.eqb v "" then h else header_set k v h.

(** Modelled from the spec: [setHeaders] followed by the three optional
    headers, each resolved on its own. *)
Definition setHeadersWithOptions (c : Client.t) (defaults opts : RequestOptions.t)
  (r : HttpRequest.t) : HttpRequest.t :=
  let r := setHeaders c r in
  let h := HttpRequest.Header r in
  let h := set_if_nonempty "X-User-ID"
             (resolve (RequestOptions.UserID opts) (RequestOptions.UserID defaults)) h in
  let h := set_if_nonempty "X-Conversation-ID"
             (resolve (RequestOptions.ConversationID opts) (RequestOptions.ConversationID defaults)) h in
  let h := if RequestOptions.CognitiveDisabled opts || RequestOptions.CognitiveDisabled defaults
           then header_set "X-Cognitive-Disabled" "true" h else h in
  {| HttpRequest.Method := HttpRequest.Method r;
     HttpRequest.URL := HttpRequest.URL r;
     HttpRequest.Header := h;
     HttpRequest.Body := HttpRequest.Body r |}.

(* ------------------------------------------------------------------ *)
(** * Observations on traces *)

(** The frames delivered on the [chunks] channel, in delivery order. *)
Fixpoint delivered (evs : list event) : list ChatStreamChunk.t :=
  match evs with
  | [] => []
  | EvSendChunk ch :: r => ch :: delivered r
  | _ :: r => delivered r
  end.

Definition is_channel_close (e : event) : bool :=
  match e with EvCloseErrs | EvCloseChunks => true | _ => false end.

Definition is_send_err (e : event) : bool :=
  match e with EvSendErr _ => true | _ => false end.

(** Per-choice reconstruction: the delta contents of the choice with the
    given index, concatenated over the frames in order. *)
Definition frame_text (idx : Z) (ch : ChatStreamChunk.t) : string :=
  String.concat ""
    (map (fun cc => Delta.Content (ChunkChoice.Delta cc))
       (filter (fun cc => ChunkChoice.Index cc =? idx) (ChatStreamChunk.Choices ch))).

Definition stream_text (idx : Z) (frames : list ChatStreamChunk.t) : string :=
  String.concat "" (map (frame_text idx) frames).

(** The frames of a stream in the spec's words: the successfully parsed
    payloads of the 'data: ' lines, in wire order, up to the sentinel. *)
Fixpoint wire_frames (dec : string -> option ChatStreamChunk.t) (toks : list string)
  : list ChatStreamChunk.t :=
  match toks with
  | [] => []
  | l :: r =>
      if has_prefix l "data: " then
        let d := trim_prefix l "data: " in
        if String.eqb d "[DONE]" then []
        else match dec d with
             | Some ch => ch :: wire_frames dec r
             | None => wire_frames dec r
             end
      else wire_frames dec r
  end.

(** Every 'data: ' payload that parses, sentinel or not. *)
Definition all_data_frames (dec : string -> option ChatStreamChunk.t) (toks : list string)
  : list ChatStreamChunk.t :=
  flat_map (fun l => if has_prefix l "data: "
                     then match dec (trim_prefix l "data: ") with
                          | Some ch => [ch]
                          | None => []
                          end
                     else []) toks.

Definition fits_buffer (l : string) : Prop :=
  Z.of_nat (String.length l) + 1 <= maxTokenSize.

(* ------------------------------------------------------------------ *)
(** * Concrete inputs *)

Definition dq : string := String "034"%char EmptyString.
Definition quoted (s : string) : string := (dq ++ s ++ dq)%string.

(** The JSON text with one choice whose delta content is [s], as in the
    repository's streaming test. *)
Definition delta_frame_prefix : string :=
  ("{" ++ quoted "choices" ++ ":[{" ++ quoted "delta" ++ ":{" ++ quoted "content" ++ ":" ++ dq)%string.
Definition delta_frame_suffix : string := (dq ++ "}}]}")%string.
Definition delta_frame (s : string) : string :=
  (delta_frame_prefix ++ s ++ delta_frame_suffix)%string.

Definition zero_chunk : ChatStreamChunk.t :=
  {| ChatStreamChunk.ID := ""; ChatStreamChunk.Object := ""; ChatStreamChunk.Created := 0;
     ChatStreamChunk.Model := ""; ChatStreamChunk.Choices := []; ChatStreamChunk.Usage := None |}.

Definition delta_chunk (s : string) : ChatStreamChunk.t :=
  {| ChatStreamChunk.ID := ""; ChatStreamChunk.Object := ""; ChatStreamChunk.Created := 0;
     ChatStreamChunk.Model := "";
     ChatStreamChunk.Choices :=
       [{| ChunkChoice.Index := 0;
           ChunkChoice.Delta := {| Delta.Role := ""; Delta.Content := s |};
           ChunkChoice.FinishReason := None |}];
     ChatStreamChunk.Usage := None |}.

(** Printable ASCII other than the double quote and the backslash: stands
    for itself inside a JSON string. *)
Definition plain_char (a : ascii) : bool :=
  let n := nat_of_ascii a in
  (32 <=? n)%nat && (n <=? 126)%nat && negb (n =? 34)%nat && negb (n =? 92)%nat.

(** A decoder that agrees with json.Unmarshal into ChatStreamChunk on the
    texts [{}] and [delta_frame s] (s plain) and rejects everything else;
    it is used below only at those texts and at invalid JSON. *)
Definition json_min_chunk (data : string) : option ChatStreamChunk.t :=
  if String.eqb data "{}" then Some zero_chunk
  else if has_prefix data delta_frame_prefix then
    let r := rev (list_ascii_of_string (trim_prefix data delta_frame_prefix)) in
    let sr := rev (list_ascii_of_string delta_frame_suffix) in
    if has_prefix (string_of_list_ascii r) (string_of_list_ascii sr) then
      let s := string_of_list_ascii (rev (skipn (List.length sr) r)) in
      if forallb plain_char (list_ascii_of_string s) then Some (delta_chunk s) else None
    else None
  else None.

(** A runtime whose server answers every request with [resp]. Its JSON
    error decoder rejects every body and marshalling always succeeds. *)
Definition demo_rt (resp : Response.t) : Runtime :=
  {| json_marshal := fun _ => Ok "{}"%string;
     json_unmarshal_chunk := json_min_chunk;
     json_unmarshal_error := fun _ => None;
     json_decode_error := fun _ => None;
     url_error := fun _ => None;
     http_do := fun _ _ => Ok resp |}.

Definition demo_client : Client.t := NewClient "http://localhost:8080/" "test-key".

Definition demo_req : ChatRequest.t :=
  {| ChatRequest.Model := "hackersera-ai";
     ChatRequest.Messages := [{| Message.Role := "user"; Message.Content := "Hi" |}];
     ChatRequest.Stream := false; ChatRequest.MaxTokens := None;
     ChatRequest.MaxCompletionTokens := None; ChatRequest.Temperature := None;
     ChatRequest.TopP := None; ChatRequest.Stop := [] |}.

Definition data_line (p : string) : string := ("data: " ++ p)%string.

Definition ok_response (lines : list string) : Response.t :=
  {| Response.StatusCode := 200;
     Response.Body := {| RespBody.Lines := lines; RespBody.Tail := ""; RespBody.End := ReadEOF |} |}.

(** The scenario of the spec: the deltas Hello, the empty string and
    [ world], a blank line after each event, then the sentinel. *)
Definition hello_world_lines : list string :=
  [data_line (delta_frame "Hello"); ""%string; data_line (delta_frame ""); ""%string;
   data_line (delta_frame " world"); ""%string; data_line "[DONE]"; ""%string].

Example hello_world_stream :
  stream_text 0 (delivered (ChatCompletionStream (demo_rt (ok_response hello_world_lines))
                              demo_client demo_req [])) = "Hello world"%string.
Proof. vm_compute. reflexivity. Qed.

(* ------------------------------------------------------------------ *)
(** * The scanning loop *)

Arguments has_prefix : simpl never.
Arguments trim_prefix : simpl never.

Lemma substring_0_length : forall s, substring 0 (String.length s) s = s.
Proof. induction s as [|c s IH]; simpl; congruence. Qed.

Lemma has_prefix_data_line : forall p, has_prefix (data_line p) "data: " = true.
Proof. intros p. unfold data_line, has_prefix. cbn. reflexivity. Qed.

Lemma trim_prefix_data_line : forall p, trim_prefix (data_line p) "data: " = p.
Proof.
  intros p. unfold trim_prefix. rewrite has_prefix_data_line.
  unfold data_line. cbn -[substring]. rewrite Nat.sub_0_r.
  cbn [substring]. apply substring_0_length.
Qed.

Lemma scan_tokens_fits : forall pre rest tail e,
  Forall fits_buffer pre ->
  scan_tokens (pre ++ rest) tail e
  = (map drop_cr pre ++ fst (scan_tokens rest tail e), snd (scan_tokens rest tail e)).
Proof.
  induction pre as [|l r IH]; intros rest tail e H; simpl.
  - destruct (scan_tokens rest tail e); reflexivity.
  - inversion H as [|? ? Hl Hr]; subst. unfold fits_buffer in Hl.
    destruct (Z.leb_spec (Z.of_nat (String.length l) + 1) maxTokenSize); [|lia].
    rewrite (IH rest tail e Hr). reflexivity.
Qed.

(** Case analysis on one iteration of the loop body. *)
Ltac loop_cases :=
  repeat match goal with
  | |- context [if ?b then _ else _] => destruct b eqn:?
  | |- context [match ?x with Some _ => _ | None => _ end] => destruct x eqn:?
  | |- context [next_select ?s] => destruct (next_select s) as [[|] ?] eqn:?
  end; simpl.

Section StreamLoop.
Variable rt : Runtime.

Definition loop_event_ok (e : event) : bool :=
  negb (is_channel_close e) && negb (is_send_err e).

(** The loop neither closes a channel nor sends an error. *)
Lemma stream_loop_events_ok : forall toks sel,
  forallb loop_event_ok (fst (stream_loop rt toks sel)) = true.
Proof.
  induction toks as [|l r IH]; intros sel; simpl; [reflexivity|].
  loop_cases; auto.
Qed.

(** When the loop observes the cancellation, that is its last action and
    the loop returns. *)
Lemma stream_loop_after_ctx_done : forall toks sel pre post,
  fst (stream_loop rt toks sel) = pre ++ EvCtxDone :: post ->
  post = [] /\ snd (stream_loop rt toks sel) = LoopReturned.
Proof.
  induction toks as [|l r IH]; intros sel pre post; simpl.
  - destruct pre as [|? [|? ?]]; simpl; intros E; inversion E.
  - loop_cases; intros E;
      (destruct pre as [|? pre]; simpl in E; inversion E; subst; clear E;
       try (eapply IH; eassumption);
       try (destruct pre as [|? pre]; simpl in *;
            match goal with H : _ = _ |- _ => inversion H end;
            subst; auto; try (eapply IH; eassumption);
            try (destruct pre; simpl in *; discriminate))).
Qed.

Lemma next_select_send : forall sel,
  Forall (eq SendWins) sel ->
  exists sel', next_select sel = (SendWins, sel') /\ Forall (eq SendWins) sel'.
Proof.
  intros [|s r] H; simpl.
  - exists []; auto.
  - inversion H; subst. exists r; auto.
Qed.

(** With a context that is never cancelled, the loop delivers the frames
    of the stream, in order, up to the sentinel. *)
Lemma stream_loop_delivers_wire_frames : forall toks sel,
  Forall (eq SendWins) sel ->
  delivered (fst (stream_loop rt toks sel)) = wire_frames (json_unmarshal_chunk rt) toks.
Proof.
  induction toks as [|l r IH]; intros sel Hsel; simpl; [reflexivity|].
  destruct (String.eqb l "") eqn:El.
  - apply String.eqb_eq in El; subst l. simpl. apply IH; assumption.
  - destruct (has_prefix l "data: ") eqn:Ep; simpl; [|apply IH; assumption].
    destruct (String.eqb (trim_prefix l "data: ") "[DONE]"); simpl; [reflexivity|].
    destruct (json_unmarshal_chunk rt (trim_prefix l "data: ")) as [ch|]; [|apply IH; assumption].
    destruct (next_select_send sel Hsel) as (sel' & -> & Hsel'). simpl.
    f_equal. apply IH; assumption.
Qed.

Lemma has_prefix_sentinel : has_prefix "data: [DONE]" "data: " = true.
Proof. reflexivity. Qed.

Lemma trim_prefix_sentinel : trim_prefix "data: [DONE]" "data: " = "[DONE]"%string.
Proof. reflexivity. Qed.

(** A loop that meets the sentinel returns, whatever precedes it. *)
Lemma stream_loop_sentinel_returns : forall pre post sel,
  snd (stream_loop rt (pre ++ "data: [DONE]"%string :: post) sel) = LoopReturned.
Proof.
  induction pre as [|l r IH]; intros post sel; simpl.
  - reflexivity.
  - loop_cases; auto.
Qed.

End StreamLoop.

(* ------------------------------------------------------------------ *)
(** * Lists of events *)

Lemma loop_events_split : forall evs,
  forallb loop_event_ok evs = true ->
  forallb (fun e => negb (is_channel_close e)) evs = true /\ filter is_send_err evs = [].
Proof.
  induction evs as [|e r IH]; simpl; [auto|].
  intros H. apply andb_true_iff in H as [He Hr].
  destruct (IH Hr) as [H1 H2].
  unfold loop_event_ok in He. apply andb_true_iff in He as [Hc Hs].
  rewrite Hc, H1, H2. apply negb_true_iff in Hs. rewrite Hs. auto.
Qed.

Lemma split_unique : forall (x : event) pre post X Y,
  ~ In x X -> ~ In x Y -> pre ++ x :: post = X ++ x :: Y -> post = Y.
Proof.
  intros x pre post X; revert pre.
  induction X as [|a X IH]; intros pre Y HX HY E; simpl in *.
  - destruct pre as [|b pre]; simpl in E.
    + injection E as E'. exact E'.
    + injection E as Hb E'. exfalso. apply HY. rewrite <- E'. apply in_elt.
  - destruct pre as [|b pre]; simpl in E.
    + injection E as Hb E'. subst. exfalso. apply HX. left; reflexivity.
    + injection E as Hb E'. eapply IH; [intros H; apply HX; right; exact H | exact HY | exact E'].
Qed.

(* ------------------------------------------------------------------ *)
(** * More concrete inputs *)

Definition demo_chat_request : HttpRequest.t :=
  {| HttpRequest.Method := "POST";
     HttpRequest.URL := "http://localhost:8080/v1/chat/completions";
     HttpRequest.Header := []; HttpRequest.Body := Some "{}"%string |}.

Definition resp_500_text : Response.t :=
  {| Response.StatusCode := 500;
     Response.Body := {| RespBody.Lines := []; RespBody.Tail := "internal server error";
                         RespBody.End := ReadEOF |} |}.

(* ------------------------------------------------------------------ *)
(** * Claims *)

(** C3: a streaming call whose response status is not 200 sends no frame:
    the task reads the body once to classify it, sends exactly that one
    APIError, closes the body and then both channels; the scanner never
    runs. *)
Theorem stream_non_success_single_error : forall rt c req sel body hreq resp,
  json_marshal rt (set_stream true req) = Ok body ->
  NewRequestWithContext rt "POST" (Client.baseURL c ++ "/v1/chat/completions")%string
    (Some body) = Ok hreq ->
  http_do rt zero_http_client (setHeaders c hreq) = Ok resp ->
  Response.StatusCode resp <> 200 ->
  ChatCompletionStream rt c req sel =
    [EvDo zero_http_client (setHeaders c hreq); EvReadAll;
     EvSendErr (ApiErr (parseError rt resp)); EvCloseBody; EvCloseErrs; EvCloseChunks].
Proof.
  intros rt c req sel body hreq resp Hm Hr Hd Hs.
  unfold ChatCompletionStream. rewrite Hm, Hr. cbv zeta. rewrite Hd.
  apply Z.eqb_neq in Hs. rewrite Hs. reflexivity.
Qed.

Lemma stream_non_success_single_error_witness :
  ChatCompletionStream (demo_rt resp_500_text) demo_client demo_req [] =
    [EvDo zero_http_client (setHeaders demo_client demo_chat_request); EvReadAll;
     EvSendErr (ApiErr (parseError (demo_rt resp_500_text) resp_500_text));
     EvCloseBody; EvCloseErrs; EvCloseChunks].
Proof.
  apply (stream_non_success_single_error (demo_rt resp_500_text) demo_client demo_req []
           "{}"%string demo_chat_request resp_500_text);
    [reflexivity | reflexivity | reflexivity | discriminate].
Defined.

(** C5: the error classifier always yields an APIError with the
    response's status code; its envelope is the decoded ErrorResponse when
    the body read decodes, and otherwise one whose message is the raw body
    text and whose type is unknown_error (no decode error is returned). *)
Theorem parseError_classifies : forall rt resp,
  APIError.StatusCode (parseError rt resp) = Response.StatusCode resp /\
  APIError.ErrorBody (parseError rt resp) =
    match json_unmarshal_error rt (read_all (Response.Body resp)) with
    | Some env => env
    | None =>
        {| ErrorResponse.Error :=
             {| ErrorDetail.Message := read_all (Response.Body resp);
                ErrorDetail.Type_ := "unknown_error";
                ErrorDetail.Param := None; ErrorDetail.Code := None |} |}
    end.
Proof.
  intros rt resp. unfold parseError.
  destruct (json_unmarshal_error rt (read_all (Response.Body resp))); split; reflexivity.
Qed.

Example parseError_internal_server_error :
  parseError (demo_rt resp_500_text) resp_500_text =
    {| APIError.StatusCode := 500;
       APIError.ErrorBody :=
         {| ErrorResponse.Error :=
              {| ErrorDetail.Message := "internal server error";
                 ErrorDetail.Type_ := "unknown_error";
                 ErrorDetail.Param := None; ErrorDetail.Code := None |} |} |}.
Proof. reflexivity. Qed.

Lemma trace_shape : forall d evs t,
  d :: ((evs ++ t) ++ EvCloseBody :: close_channels)
  = (d :: (evs ++ t) ++ [EvCloseBody]) ++ [EvCloseErrs; EvCloseChunks].
Proof. intros. unfold close_channels. simpl. rewrite <- !app_assoc. reflexivity. Qed.

(** C6: on every path the task's last two actions are close(errs) and
    close(chunks), each performed once and after every send; the task
    sends at most one error, so the send on the one-slot [errs] channel
    never blocks the closes. (The caller only holds receive-only channels.) *)
Theorem stream_channels_closed_once_last : forall rt c req sel,
  exists pre,
    ChatCompletionStream rt c req sel = pre ++ [EvCloseErrs; EvCloseChunks] /\
    forallb (fun e => negb (is_channel_close e)) pre = true /\
    (List.length (filter is_send_err pre) <= 1)%nat.
Proof.
  intros rt c req sel. unfold ChatCompletionStream.
  destruct (json_marshal rt (set_stream true req)) as [body|e].
  2: { exists [EvSendErr (Wrapped "marshal request" e)]; simpl; auto. }
  destruct (NewRequestWithContext rt _ _ _) as [hreq|e].
  2: { exists [EvSendErr (Wrapped "create request" e)]; simpl; auto. }
  cbv zeta.
  destruct (http_do rt zero_http_client (setHeaders c hreq)) as [resp|e].
  2: { exists [EvDo zero_http_client (setHeaders c hreq); EvSendErr (Wrapped "send request" e)];
       simpl; auto. }
  destruct (negb (Response.StatusCode resp =? 200)).
  { exists [EvDo zero_http_client (setHeaders c hreq); EvReadAll;
            EvSendErr (ApiErr (parseError rt resp)); EvCloseBody]; simpl; auto. }
  destruct (scan (Response.Body resp)) as [toks serr].
  pose proof (stream_loop_events_ok rt toks sel) as Hok.
  destruct (stream_loop rt toks sel) as [evs ex]. simpl in Hok.
  apply loop_events_split in Hok as [Hc Hs].
  cbv beta iota.
  eexists; split; [apply trace_shape|].
  simpl. rewrite !forallb_app, !filter_app, Hc, Hs.
  destruct ex; [|destruct serr]; simpl; auto.
Qed.

(** C9: once the task takes the [ctx.Done()] case of the select, its
    remaining actions are closing the body and the two channels: no frame
    is sent and no further line is scanned. *)
Theorem stream_cancel_stops : forall rt c req sel pre post,
  ChatCompletionStream rt c req sel = pre ++ EvCtxDone :: post ->
  post = [EvCloseBody; EvCloseErrs; EvCloseChunks].
Proof.
  intros rt c req sel pre post E.
  assert (Hin : In EvCtxDone (ChatCompletionStream rt c req sel))
    by (rewrite E; apply in_elt).
  revert E Hin. unfold ChatCompletionStream.
  destruct (json_marshal rt (set_stream true req)) as [body|e].
  2: { intros _ Hin; simpl in Hin; intuition discriminate. }
  destruct (NewRequestWithContext rt _ _ _) as [hreq|e].
  2: { intros _ Hin; simpl in Hin; intuition discriminate. }
  cbv zeta.
  destruct (http_do rt zero_http_client (setHeaders c hreq)) as [resp|e].
  2: { intros _ Hin; simpl in Hin; intuition discriminate. }
  destruct (negb (Response.StatusCode resp =? 200)).
  { intros _ Hin; simpl in Hin; intuition discriminate. }
  destruct (scan (Response.Body resp)) as [toks serr].
  pose proof (stream_loop_after_ctx_done rt toks sel) as Hlast.
  destruct (stream_loop rt toks sel) as [evs ex]. simpl in Hlast.
  cbv beta iota. intros E Hin.
  assert (Hev : In EvCtxDone evs).
  { simpl in Hin. destruct Hin as [Hin|Hin]; [discriminate|].
    rewrite !in_app_iff in Hin. destruct Hin as [[Hin|Hin]|Hin]; auto;
      [destruct ex; [|destruct serr]; simpl in Hin; intuition discriminate
      | simpl in Hin; intuition discriminate]. }
  apply in_split in Hev as (a & b & Hab).
  destruct (Hlast a b Hab) as [-> ->]. subst evs. simpl in E.
  rewrite app_nil_r, <- app_assoc in E. simpl in E.
  apply (split_unique EvCtxDone pre post (EvDo zero_http_client (setHeaders c hreq) :: a)).
  - intros [Hd|Ha]; [discriminate|].
    apply in_split in Ha as (a1 & a2 & ->).
    destruct (Hlast a1 (a2 ++ [EvCtxDone])) as [Hn _].
    + rewrite <- app_assoc. reflexivity.
    + destruct a2; discriminate.
  - simpl; intuition discriminate.
  - rewrite <- E. reflexivity.
Qed.

Definition cancelled_trace : list event :=
  ChatCompletionStream (demo_rt (ok_response hello_world_lines)) demo_client demo_req
    [SendWins; DoneWins].

Lemma stream_cancel_stops_witness :
  cancelled_trace = firstn 5 cancelled_trace ++ EvCtxDone :: skipn 6 cancelled_trace /\
  skipn 6 cancelled_trace = [EvCloseBody; EvCloseErrs; EvCloseChunks].
Proof.
  assert (E : cancelled_trace = firstn 5 cancelled_trace ++ EvCtxDone :: skipn 6 cancelled_trace)
    by (vm_compute; reflexivity).
  split; [exact E|].
  exact (stream_cancel_stops (demo_rt (ok_response hello_world_lines)) demo_client demo_req
           [SendWins; DoneWins] (firstn 5 cancelled_trace) (skipn 6 cancelled_trace) E).
Defined.

(* ------------------------------------------------------------------ *)
(** * Streams answered with status 200 *)

Lemma delivered_app : forall l1 l2, delivered (l1 ++ l2) = delivered l1 ++ delivered l2.
Proof. induction l1 as [|e r IH]; intros l2; [reflexivity|]. destruct e; simpl; rewrite ?IH; reflexivity. Qed.

Lemma stream_ok_trace : forall rt c req sel body hreq resp,
  json_marshal rt (set_stream true req) = Ok body ->
  NewRequestWithContext rt "POST" (Client.baseURL c ++ "/v1/chat/completions")%string
    (Some body) = Ok hreq ->
  http_do rt zero_http_client (setHeaders c hreq) = Ok resp ->
  Response.StatusCode resp = 200 ->
  ChatCompletionStream rt c req sel =
    EvDo zero_http_client (setHeaders c hreq) ::
    (fst (stream_loop rt (fst (scan (Response.Body resp))) sel) ++
     match snd (stream_loop rt (fst (scan (Response.Body resp))) sel),
           snd (scan (Response.Body resp)) with
     | LoopEnded, Some e => [EvSendErr (Wrapped "read stream" e)]
     | _, _ => []
     end) ++ EvCloseBody :: close_channels.
Proof.
  intros rt c req sel body hreq resp Hm Hr Hd Hs.
  unfold ChatCompletionStream. rewrite Hm, Hr. cbv zeta. rewrite Hd, Hs. simpl negb. cbv iota.
  destruct (scan (Response.Body resp)) as [toks serr]. cbn [fst snd].
  destruct (stream_loop rt toks sel) as [evs ex]. reflexivity.
Qed.

Lemma delivered_read_stream_error : forall ex serr,
  delivered (match ex, serr with
             | LoopEnded, Some e => [EvSendErr (Wrapped "read stream" e)]
             | _, _ => []
             end) = [].
Proof. intros [] [e|]; reflexivity. Qed.

(** C1 (as stated, refuted): a 200 stream whose sentinel is followed by a
    further frame line; the scanner yields the line [data: {}], whose
    payload decodes, but the task returns at the sentinel before it. *)
Definition after_sentinel_lines : list string := [data_line "[DONE]"; data_line "{}"].

Lemma stream_frames_after_sentinel_counterexample :
  delivered (ChatCompletionStream (demo_rt (ok_response after_sentinel_lines))
               demo_client demo_req [])
  <> all_data_frames json_min_chunk (fst (scan (Response.Body (ok_response after_sentinel_lines)))).
Proof. vm_compute. discriminate. Qed.

(** C1 (amended): for a streaming call answered with status 200 whose
    context is never cancelled, the frames delivered are, in order, the
    decodable payloads of the 'data: ' lines the scanner yields before the
    first sentinel line; so for every choice index the concatenated delta
    contents of the delivered frames equal those of these payloads. *)
Theorem stream_delivers_wire_frames : forall rt c req sel body hreq resp,
  json_marshal rt (set_stream true req) = Ok body ->
  NewRequestWithContext rt "POST" (Client.baseURL c ++ "/v1/chat/completions")%string
    (Some body) = Ok hreq ->
  http_do rt zero_http_client (setHeaders c hreq) = Ok resp ->
  Response.StatusCode resp = 200 ->
  Forall (eq SendWins) sel ->
  delivered (ChatCompletionStream rt c req sel)
    = wire_frames (json_unmarshal_chunk rt) (fst (scan (Response.Body resp))) /\
  forall idx,
    stream_text idx (delivered (ChatCompletionStream rt c req sel))
    = stream_text idx (wire_frames (json_unmarshal_chunk rt) (fst (scan (Response.Body resp)))).
Proof.
  intros rt c req sel body hreq resp Hm Hr Hd Hs Hsel.
  assert (E : delivered (ChatCompletionStream rt c req sel)
              = wire_frames (json_unmarshal_chunk rt) (fst (scan (Response.Body resp)))).
  { rewrite (stream_ok_trace rt c req sel body hreq resp Hm Hr Hd Hs). simpl.
    rewrite !delivered_app, delivered_read_stream_error, stream_loop_delivers_wire_frames
      by exact Hsel.
    simpl. rewrite !app_nil_r. reflexivity. }
  split; [exact E|]. intros idx. rewrite E. reflexivity.
Qed.

Lemma stream_delivers_wire_frames_witness :
  delivered (ChatCompletionStream (demo_rt (ok_response hello_world_lines)) demo_client demo_req [])
  = wire_frames json_min_chunk (fst (scan (Response.Body (ok_response hello_world_lines)))) /\
  stream_text 0 (wire_frames json_min_chunk (fst (scan (Response.Body (ok_response hello_world_lines)))))
  = "Hello world"%string.
Proof.
  split.
  - apply (stream_delivers_wire_frames (demo_rt (ok_response hello_world_lines)) demo_client
             demo_req [] "{}"%string demo_chat_request (ok_response hello_world_lines));
      [reflexivity | reflexivity | reflexivity | reflexivity | constructor].
  - vm_compute. reflexivity.
Defined.

Lemma scan_tokens_sentinel : forall post tail e,
  scan_tokens ("data: [DONE]"%string :: post) tail e
  = ("data: [DONE]"%string :: fst (scan_tokens post tail e), snd (scan_tokens post tail e)).
Proof. intros post tail e. simpl. destruct (scan_tokens post tail e); reflexivity. Qed.




Lemma existsb_filter_nil : forall (f : event -> bool) l, filter f l = [] -> existsb f l = false.
Proof.
  intros f; induction l as [|x r IH]; simpl; [reflexivity|].
  destruct (f x); [discriminate|]. exact IH.
Qed.

(** A 200 stream whose loop returns (sentinel or cancellation) sends no error. *)
Lemma stream_ok_no_error : forall rt c req sel body hreq resp,
  json_marshal rt (set_stream true req) = Ok body ->
  NewRequestWithContext rt "POST" (Client.baseURL c ++ "/v1/chat/completions")%string
    (Some body) = Ok hreq ->
  http_do rt zero_http_client (setHeaders c hreq) = Ok resp ->
  Response.StatusCode resp = 200 ->
  snd (stream_loop rt (fst (scan (Response.Body resp))) sel) = LoopReturned ->
  existsb is_send_err (ChatCompletionStream rt c req sel) = false.
Proof.
  intros rt c req sel body hreq resp Hm Hr Hd Hs Hx.
  rewrite (stream_ok_trace rt c req sel body hreq resp Hm Hr Hd Hs), Hx, app_nil_r.
  pose proof (stream_loop_events_ok rt (fst (scan (Response.Body resp))) sel) as Hok.
  apply loop_events_split in Hok as [_ Hse].
  simpl. rewrite existsb_app, (existsb_filter_nil _ _ Hse). reflexivity.
Qed.



Ltac fits := unfold fits_buffer; vm_compute; intros Habs; discriminate Habs.


Lemma has_prefix_empty_data : has_prefix "" "data: " = false.
Proof. reflexivity. Qed.

(** C4: a 'data: ' line whose payload is not the sentinel and does not
    decode is skipped: the loop goes on with the next line, with the same
    pending selects. In particular a 200 stream whose scanner yields a
    frame, a corrupt frame, a frame and the sentinel, with a context that
    is never cancelled, delivers both good frames and sends no error. *)
Theorem stream_skips_corrupt_line :
  (forall rt line rest sel,
     has_prefix line "data: " = true ->
     trim_prefix line "data: " <> "[DONE]"%string ->
     json_unmarshal_chunk rt (trim_prefix line "data: ") = None ->
     stream_loop rt (line :: rest) sel = cons_ev (EvScan true) (stream_loop rt rest sel)) /\
  (forall rt c req body hreq resp p1 bad p2 c1 c2 post,
     json_marshal rt (set_stream true req) = Ok body ->
     NewRequestWithContext rt "POST" (Client.baseURL c ++ "/v1/chat/completions")%string
       (Some body) = Ok hreq ->
     http_do rt zero_http_client (setHeaders c hreq) = Ok resp ->
     Response.StatusCode resp = 200 ->
     fst (scan (Response.Body resp))
       = [data_line p1; data_line bad; data_line p2; "data: [DONE]"%string] ++ post ->
     p1 <> "[DONE]"%string -> bad <> "[DONE]"%string -> p2 <> "[DONE]"%string ->
     json_unmarshal_chunk rt p1 = Some c1 ->
     json_unmarshal_chunk rt bad = None ->
     json_unmarshal_chunk rt p2 = Some c2 ->
     delivered (ChatCompletionStream rt c req []) = [c1; c2] /\
     existsb is_send_err (ChatCompletionStream rt c req []) = false).
Proof.
  split.
  - intros rt line rest sel Hp Hd Hj. simpl.
    destruct (String.eqb line "") eqn:He.
    { apply String.eqb_eq in He. subst line. rewrite has_prefix_empty_data in Hp. discriminate. }
    rewrite Hp. simpl.
    apply String.eqb_neq in Hd. rewrite Hd, Hj. reflexivity.
  - intros rt c req body hreq resp p1 bad p2 c1 c2 post Hm Hr Hd Hs Hscan
      H1 Hb H2 J1 Jb J2.
    split.
    + rewrite (stream_ok_trace rt c req [] body hreq resp Hm Hr Hd Hs). simpl.
      rewrite !delivered_app, delivered_read_stream_error,
        stream_loop_delivers_wire_frames by constructor.
      rewrite Hscan. cbn [app wire_frames].
      rewrite !has_prefix_data_line, !trim_prefix_data_line.
      apply String.eqb_neq in H1, Hb, H2. rewrite H1, J1, Hb, Jb, H2, J2.
      rewrite has_prefix_sentinel, trim_prefix_sentinel. reflexivity.
    + apply (stream_ok_no_error rt c req [] body hreq resp Hm Hr Hd Hs).
      rewrite Hscan.
      apply (stream_loop_sentinel_returns rt [data_line p1; data_line bad; data_line p2]).
Qed.

Definition corrupt_line_lines : list string :=
  [data_line (delta_frame "Hello"); data_line "{oops"; data_line (delta_frame " world");
   data_line "[DONE]"].

Lemma stream_skips_corrupt_line_witness :
  delivered (ChatCompletionStream (demo_rt (ok_response corrupt_line_lines)) demo_client demo_req [])
    = [delta_chunk "Hello"; delta_chunk " world"] /\
  existsb is_send_err
    (ChatCompletionStream (demo_rt (ok_response corrupt_line_lines)) demo_client demo_req []) = false.
Proof.
  apply (proj2 stream_skips_corrupt_line (demo_rt (ok_response corrupt_line_lines)) demo_client
           demo_req "{}"%string demo_chat_request (ok_response corrupt_line_lines)
           (delta_frame "Hello") "{oops"%string (delta_frame " world")
           (delta_chunk "Hello") (delta_chunk " world") []);
    try reflexivity; try discriminate; vm_compute; reflexivity.
Defined.

(* ------------------------------------------------------------------ *)
(** * Requests and headers *)

Lemma header_get_set_same : forall k v h, header_get k (header_set k v h) = Some v.
Proof. intros k v h. unfold header_get, header_set. simpl. rewrite String.eqb_refl. reflexivity. Qed.

Lemma find_filter_other : forall k k' h,
  k <> k' ->
  find (fun kv : string * string => String.eqb (fst kv) k)
       (filter (fun kv => negb (String.eqb (fst kv) k')) h)
  = find (fun kv : string * string => String.eqb (fst kv) k) h.
Proof.
  intros k k' h Hne. induction h as [|[a b] r IH]; simpl; [reflexivity|].
  destruct (String.eqb a k') eqn:E1; destruct (String.eqb a k) eqn:E2; simpl;
    rewrite ?E2; auto.
  apply String.eqb_eq in E1, E2. subst. contradiction.
Qed.

Lemma header_get_set_other : forall k k' v h,
  k <> k' -> header_get k (header_set k' v h) = header_get k h.
Proof.
  intros k k' v h Hne. unfold header_get, header_set. simpl.
  destruct (String.eqb k' k) eqn:E.
  - apply String.eqb_eq in E. subst. contradiction.
  - rewrite find_filter_other by exact Hne. reflexivity.
Qed.

Lemma NewRequestWithContext_header : forall rt m u b hreq,
  NewRequestWithContext rt m u b = Ok hreq -> HttpRequest.Header hreq = [].
Proof.
  intros rt m u b hreq. unfold NewRequestWithContext.
  destruct (url_error rt u); intros H; inversion H; reflexivity.
Qed.

(** What [setHeaders] guarantees, as the spec phrases it. *)
Definition headers_ok (c : Client.t) (r : HttpRequest.t) : Prop :=
  header_get "Content-Type" (HttpRequest.Header r) = Some "application/json"%string /\
  header_get "Authorization" (HttpRequest.Header r)
  = (if String.eqb (Client.apiKey c) "" then None
     else Some ("Bearer " ++ Client.apiKey c)%string).

Lemma setHeaders_ok : forall c r, HttpRequest.Header r = [] -> headers_ok c (setHeaders c r).
Proof.
  intros c r H. unfold headers_ok, setHeaders. simpl. rewrite H.
  destruct (String.eqb (Client.apiKey c) "") eqn:E; simpl.
  - split; reflexivity.
  - rewrite header_get_set_other by discriminate. rewrite !header_get_set_same. split; reflexivity.
Qed.

(** The round trip of a synchronous method uses the client's own
    http.Client and the request built for it. *)
Lemma sync_call_do : forall rt c m p mb wh ok hc r,
  In (EvDo hc r) (fst (sync_call rt c m p mb wh ok)) ->
  hc = Client.httpClient c /\
  exists hreq, NewRequestWithContext rt m (Client.baseURL c ++ p)%string
                 (match mb with Some (Ok b) => Some b | _ => None end) = Ok hreq
               /\ r = if wh then setHeaders c hreq else hreq.
Proof.
  intros rt c m p mb wh ok hc r. unfold sync_call.
  destruct mb as [[b|e]|]; simpl; [| intros []|];
  (destruct (NewRequestWithContext rt m _ _) as [hreq|e]; simpl; [|intros []]);
  (destruct (http_do rt _ _) as [resp|e]; simpl;
   [destruct (existsb _ _); [destruct (json_decode_error rt _)|]|]); simpl;
  intros H; repeat match goal with H : _ \/ _ |- _ => destruct H as [H|H] end;
  try discriminate; try contradiction;
  injection H as H1 H2; subst; split; try reflexivity; eexists; split; reflexivity.
Qed.

Lemma stream_loop_no_do : forall rt toks sel hc r,
  ~ In (EvDo hc r) (fst (stream_loop rt toks sel)).
Proof.
  intros rt toks; induction toks as [|l rest IH]; intros sel hc r; simpl.
  - intros [H|H]; [discriminate|contradiction].
  - loop_cases; intros H;
      repeat (destruct H as [H|H]; [discriminate|]); try contradiction; eapply IH; eassumption.
Qed.

(** The one round trip of the streaming task uses a fresh [http.Client{}]
    and the request built by [setHeaders]. *)
Lemma stream_do : forall rt c req sel hc r,
  In (EvDo hc r) (ChatCompletionStream rt c req sel) ->
  hc = zero_http_client /\
  exists body hreq, json_marshal rt (set_stream true req) = Ok body /\
    NewRequestWithContext rt "POST" (Client.baseURL c ++ "/v1/chat/completions")%string
      (Some body) = Ok hreq /\ r = setHeaders c hreq.
Proof.
  intros rt c req sel hc r. unfold ChatCompletionStream.
  destruct (json_marshal rt (set_stream true req)) as [body|e] eqn:Hm.
  2: { simpl; intuition discriminate. }
  destruct (NewRequestWithContext rt _ _ _) as [hreq|e] eqn:Hr.
  2: { simpl; intuition discriminate. }
  cbv zeta. intros [H|H].
  - injection H as H1 H2. subst. split; [reflexivity|]. exists body, hreq. auto.
  - exfalso. revert H.
    destruct (http_do rt _ _) as [resp|e].
    2: { simpl; intuition discriminate. }
    destruct (negb (Response.StatusCode resp =? 200)).
    { simpl; intuition discriminate. }
    destruct (scan (Response.Body resp)) as [toks serr].
    pose proof (stream_loop_no_do rt toks sel hc r) as Hn.
    destruct (stream_loop rt toks sel) as [evs ex]. simpl in Hn. cbv beta iota.
    rewrite !in_app_iff. intros [[H|H]|H]; [contradiction| |].
    + destruct ex; [|destruct serr]; simpl in H; intuition discriminate.
    + simpl in H; intuition discriminate.
Qed.

Lemma setHeadersWithOptions_user : forall c d o r,
  resolve (RequestOptions.UserID o) (RequestOptions.UserID d) <> ""%string ->
  header_get "X-User-ID" (HttpRequest.Header (setHeadersWithOptions c d o r))
  = Some (resolve (RequestOptions.UserID o) (RequestOptions.UserID d)).
Proof.
  intros c d o r Hne. unfold setHeadersWithOptions. cbv zeta. cbn [HttpRequest.Header].
  set (u := resolve (RequestOptions.UserID o) (RequestOptions.UserID d)) in *.
  set (v := resolve (RequestOptions.ConversationID o) (RequestOptions.ConversationID d)).
  unfold set_if_nonempty.
  destruct (String.eqb u "") eqn:Eu; [apply String.eqb_eq in Eu; contradiction|].
  destruct (String.eqb v ""); destruct (_ || _);
    repeat (rewrite header_get_set_other by discriminate); apply header_get_set_same.
Qed.

Lemma setHeadersWithOptions_conversation : forall c d o r,
  resolve (RequestOptions.ConversationID o) (RequestOptions.ConversationID d) <> ""%string ->
  header_get "X-Conversation-ID" (HttpRequest.Header (setHeadersWithOptions c d o r))
  = Some (resolve (RequestOptions.ConversationID o) (RequestOptions.ConversationID d)).
Proof.
  intros c d o r Hne. unfold setHeadersWithOptions. cbv zeta. cbn [HttpRequest.Header].
  set (v := resolve (RequestOptions.ConversationID o) (RequestOptions.ConversationID d)) in *.
  unfold set_if_nonempty.
  destruct (String.eqb v "") eqn:Ev; [apply String.eqb_eq in Ev; contradiction|].
  destruct (_ || _);
    repeat (rewrite header_get_set_other by discriminate); apply header_get_set_same.
Qed.

Lemma resolve_no_override : forall d, resolve "" d = d.
Proof. reflexivity. Qed.

Lemma resolve_override : forall o d, o <> ""%string -> resolve o d = o.
Proof.
  intros o d H. unfold resolve. destruct (String.eqb o "") eqn:E; [|reflexivity].
  apply String.eqb_eq in E. contradiction.
Qed.

Lemma setHeaders_header_other : forall c r k,
  k <> "Content-Type"%string -> k <> "Authorization"%string ->
  header_get k (HttpRequest.Header (setHeaders c r)) = header_get k (HttpRequest.Header r).
Proof.
  intros c r k H1 H2. unfold setHeaders. cbv zeta. cbn [HttpRequest.Header].
  destruct (negb _); rewrite ?header_get_set_other by assumption; reflexivity.
Qed.

Lemma setHeadersWithOptions_user_eq : forall c d o r,
  header_get "X-User-ID" (HttpRequest.Header (setHeadersWithOptions c d o r))
  = if String.eqb (resolve (RequestOptions.UserID o) (RequestOptions.UserID d)) ""
    then header_get "X-User-ID" (HttpRequest.Header r)
    else Some (resolve (RequestOptions.UserID o) (RequestOptions.UserID d)).
Proof.
  intros c d o r. unfold setHeadersWithOptions. cbv zeta. cbn [HttpRequest.Header].
  unfold set_if_nonempty.
  destruct (String.eqb (resolve (RequestOptions.UserID o) (RequestOptions.UserID d)) "");
  destruct (String.eqb (resolve (RequestOptions.ConversationID o) (RequestOptions.ConversationID d)) "");
  destruct (_ || _);
  repeat (rewrite header_get_set_other by discriminate);
  first [apply header_get_set_same | apply setHeaders_header_other; discriminate].
Qed.

Lemma setHeadersWithOptions_conversation_eq : forall c d o r,
  header_get "X-Conversation-ID" (HttpRequest.Header (setHeadersWithOptions c d o r))
  = if String.eqb (resolve (RequestOptions.ConversationID o) (RequestOptions.ConversationID d)) ""
    then header_get "X-Conversation-ID" (HttpRequest.Header r)
    else Some (resolve (RequestOptions.ConversationID o) (RequestOptions.ConversationID d)).
Proof.
  intros c d o r. unfold setHeadersWithOptions. cbv zeta. cbn [HttpRequest.Header].
  unfold set_if_nonempty.
  destruct (String.eqb (resolve (RequestOptions.UserID o) (RequestOptions.UserID d)) "");
  destruct (String.eqb (resolve (RequestOptions.ConversationID o) (RequestOptions.ConversationID d)) "");
  destruct (_ || _);
  repeat (rewrite header_get_set_other by discriminate);
  first [apply header_get_set_same | apply setHeaders_header_other; discriminate].
Qed.

Lemma setHeadersWithOptions_cognitive_eq : forall c d o r,
  header_get "X-Cognitive-Disabled" (HttpRequest.Header (setHeadersWithOptions c d o r))
  = if RequestOptions.CognitiveDisabled o || RequestOptions.CognitiveDisabled d
    then Some "true"%string
    else header_get "X-Cognitive-Disabled" (HttpRequest.Header r).
Proof.
  intros c d o r. unfold setHeadersWithOptions. cbv zeta. cbn [HttpRequest.Header].
  unfold set_if_nonempty.
  destruct (String.eqb (resolve (RequestOptions.UserID o) (RequestOptions.UserID d)) "");
  destruct (String.eqb (resolve (RequestOptions.ConversationID o) (RequestOptions.ConversationID d)) "");
  destruct (_ || _);
  repeat (rewrite header_get_set_other by discriminate);
  first [apply header_get_set_same | apply setHeaders_header_other; discriminate].
Qed.

Lemma resolve_empty : forall o d, o = ""%string -> d = ""%string -> String.eqb (resolve o d) "" = true.
Proof. intros o d -> ->. reflexivity. Qed.

(** C7 (modelled from the spec): each of the three identity headers is
    resolved on its own field, override over default. X-User-ID and
    X-Conversation-ID carry the per-call override when it is non-empty
    (whatever the default), else the non-empty default, else the request
    is left as it was; X-Cognitive-Disabled is set to true when the
    override or the default asks for it. So each header depends only on
    its own field of the override and of the defaults: an override on one
    field never clears a default on another. In particular, with client
    defaults carrying only the user id U1 and a per-call override carrying
    only the conversation id C1, the request carries X-User-ID = U1 and
    X-Conversation-ID = C1 together. *)
Theorem identity_headers_layered :
  (forall c r u1 c1, u1 <> ""%string -> c1 <> ""%string ->
     let h := HttpRequest.Header
                (setHeadersWithOptions c (SetUserID no_options u1)
                   (SetConversationID no_options c1) r) in
     header_get "X-User-ID" h = Some u1 /\ header_get "X-Conversation-ID" h = Some c1) /\
  (forall c d o r,
     let h := HttpRequest.Header (setHeadersWithOptions c d o r) in
     (RequestOptions.UserID o <> ""%string ->
        header_get "X-User-ID" h = Some (RequestOptions.UserID o)) /\
     (RequestOptions.UserID o = ""%string -> RequestOptions.UserID d <> ""%string ->
        header_get "X-User-ID" h = Some (RequestOptions.UserID d)) /\
     (RequestOptions.UserID o = ""%string -> RequestOptions.UserID d = ""%string ->
        header_get "X-User-ID" h = header_get "X-User-ID" (HttpRequest.Header r)) /\
     (RequestOptions.ConversationID o <> ""%string ->
        header_get "X-Conversation-ID" h = Some (RequestOptions.ConversationID o)) /\
     (RequestOptions.ConversationID o = ""%string ->
        RequestOptions.ConversationID d <> ""%string ->
        header_get "X-Conversation-ID" h = Some (RequestOptions.ConversationID d)) /\
     (RequestOptions.ConversationID o = ""%string ->
        RequestOptions.ConversationID d = ""%string ->
        header_get "X-Conversation-ID" h = header_get "X-Conversation-ID" (HttpRequest.Header r)) /\
     (RequestOptions.CognitiveDisabled o = true \/ RequestOptions.CognitiveDisabled d = true ->
        header_get "X-Cognitive-Disabled" h = Some "true"%string) /\
     (RequestOptions.CognitiveDisabled o = false -> RequestOptions.CognitiveDisabled d = false ->
        header_get "X-Cognitive-Disabled" h
        = header_get "X-Cognitive-Disabled" (HttpRequest.Header r))) /\
  (forall c d d' o o' r,
     let h := HttpRequest.Header (setHeadersWithOptions c d o r) in
     let h' := HttpRequest.Header (setHeadersWithOptions c d' o' r) in
     (RequestOptions.UserID o = RequestOptions.UserID o' ->
        RequestOptions.UserID d = RequestOptions.UserID d' ->
        header_get "X-User-ID" h = header_get "X-User-ID" h') /\
     (RequestOptions.ConversationID o = RequestOptions.ConversationID o' ->
        RequestOptions.ConversationID d = RequestOptions.ConversationID d' ->
        header_get "X-Conversation-ID" h = header_get "X-Conversation-ID" h') /\
     (RequestOptions.CognitiveDisabled o = RequestOptions.CognitiveDisabled o' ->
        RequestOptions.CognitiveDisabled d = RequestOptions.CognitiveDisabled d' ->
        header_get "X-Cognitive-Disabled" h = header_get "X-Cognitive-Disabled" h')).
Proof.
  split; [|split].
  - intros c r u1 c1 Hu Hc. cbv zeta. split.
    + rewrite setHeadersWithOptions_user; cbn [SetUserID SetConversationID no_options RequestOptions.UserID];
        rewrite resolve_no_override; [reflexivity|exact Hu].
    + rewrite setHeadersWithOptions_conversation;
        cbn [SetUserID SetConversationID no_options RequestOptions.ConversationID];
        rewrite resolve_override by exact Hc; [reflexivity|exact Hc].
  - intros c d o r. cbv zeta.
    rewrite setHeadersWithOptions_user_eq, setHeadersWithOptions_conversation_eq,
      setHeadersWithOptions_cognitive_eq.
    split; [|split; [|split; [|split; [|split; [|split; [|split]]]]]].
    + intros Ho. rewrite (resolve_override _ _ Ho), (proj2 (String.eqb_neq _ _) Ho).
      reflexivity.
    + intros Ho Hd. rewrite Ho, resolve_no_override.
      rewrite (proj2 (String.eqb_neq _ _) Hd). reflexivity.
    + intros Ho Hd. rewrite (resolve_empty _ _ Ho Hd). reflexivity.
    + intros Ho. rewrite (resolve_override _ _ Ho), (proj2 (String.eqb_neq _ _) Ho).
      reflexivity.
    + intros Ho Hd. rewrite Ho, resolve_no_override.
      rewrite (proj2 (String.eqb_neq _ _) Hd). reflexivity.
    + intros Ho Hd. rewrite (resolve_empty _ _ Ho Hd). reflexivity.
    + intros [H|H]; rewrite H; [reflexivity|]. rewrite orb_true_r. reflexivity.
    + intros Ho Hd. rewrite Ho, Hd. reflexivity.
  - intros c d d' o o' r. cbv zeta.
    rewrite !setHeadersWithOptions_user_eq, !setHeadersWithOptions_conversation_eq,
      !setHeadersWithOptions_cognitive_eq.
    split; [|split]; intros Ho Hd; rewrite Ho, Hd; reflexivity.
Qed.

Lemma identity_headers_layered_witness :
  let h := HttpRequest.Header
             (setHeadersWithOptions demo_client (SetUserID no_options "user-42")
                (SetConversationID no_options "conv-99") demo_chat_request) in
  header_get "X-User-ID" h = Some "user-42"%string /\
  header_get "X-Conversation-ID" h = Some "conv-99"%string /\
  header_get "X-User-ID"
    (HttpRequest.Header
       (setHeadersWithOptions demo_client (SetUserID no_options "global-user")
          (SetUserID no_options "user-42") demo_chat_request))
  = Some "user-42"%string /\
  header_get "X-User-ID"
    (HttpRequest.Header
       (setHeadersWithOptions demo_client (SetUserID no_options "global-user")
          (SetConversationID no_options "conv-99") demo_chat_request))
  = Some "global-user"%string /\
  header_get "X-Conversation-ID"
    (HttpRequest.Header (setHeadersWithOptions demo_client no_options no_options demo_chat_request))
  = None /\
  header_get "X-Cognitive-Disabled"
    (HttpRequest.Header
       (setHeadersWithOptions demo_client (SetUserID no_options "global-user")
          {| RequestOptions.UserID := ""; RequestOptions.ConversationID := "";
             RequestOptions.CognitiveDisabled := true |} demo_chat_request))
  = Some "true"%string /\
  header_get "X-User-ID"
    (HttpRequest.Header
       (setHeadersWithOptions demo_client (SetUserID no_options "global-user")
          {| RequestOptions.UserID := ""; RequestOptions.ConversationID := "";
             RequestOptions.CognitiveDisabled := true |} demo_chat_request))
  = header_get "X-User-ID"
      (HttpRequest.Header
         (setHeadersWithOptions demo_client (SetUserID no_options "global-user")
            no_options demo_chat_request)).
Proof.
  destruct identity_headers_layered as [Ha [Hb Hc]].
  split; [|split; [|split; [|split; [|split; [|split]]]]].
  - apply (Ha demo_client demo_chat_request "user-42"%string "conv-99"%string); discriminate.
  - apply (Ha demo_client demo_chat_request "user-42"%string "conv-99"%string); discriminate.
  - apply (Hb demo_client (SetUserID no_options "global-user"%string)
             (SetUserID no_options "user-42"%string) demo_chat_request).
    discriminate.
  - apply (Hb demo_client (SetUserID no_options "global-user"%string)
             (SetConversationID no_options "conv-99"%string) demo_chat_request);
      [reflexivity|discriminate].
  - apply (Hb demo_client no_options no_options demo_chat_request); reflexivity.
  - apply (Hb demo_client (SetUserID no_options "global-user"%string)
             {| RequestOptions.UserID := ""; RequestOptions.ConversationID := "";
                RequestOptions.CognitiveDisabled := true |} demo_chat_request).
    left. reflexivity.
  - apply (Hc demo_client (SetUserID no_options "global-user"%string)
             (SetUserID no_options "global-user"%string)
             {| RequestOptions.UserID := ""; RequestOptions.ConversationID := "";
                RequestOptions.CognitiveDisabled := true |} no_options demo_chat_request);
      reflexivity.
Defined.

(** C8: counterexample. [Health] builds its request without [setHeaders]:
    for the demo client, whose key [test-key] is non-empty, the request it
    issues carries neither Content-Type nor Authorization. *)
Lemma health_headers_counterexample :
  Client.apiKey demo_client <> ""%string /\
  exists hc r,
    In (EvDo hc r) (fst (run_call (demo_rt (ok_response [])) demo_client Health)) /\
    header_get "Content-Type" (HttpRequest.Header r) = None /\
    header_get "Authorization" (HttpRequest.Header r) = None.
Proof.
  split; [discriminate|].
  eexists; eexists; split; [vm_compute; left; reflexivity|].
  split; reflexivity.
Qed.

Definition is_probe (call : ApiCall) : bool :=
  match call with Health | Ready => true | _ => false end.

(** C8 (amended): every request issued by the streaming call and by every
    synchronous method other than [Health] and [Ready] carries
    Content-Type application/json, and Authorization [Bearer] followed by
    the key exactly when the key is non-empty; the requests of [Health]
    and [Ready] carry no header at all. *)
Theorem request_headers_set : forall rt c,
  (forall call hc r, In (EvDo hc r) (fst (run_call rt c call)) ->
     if is_probe call then HttpRequest.Header r = [] else headers_ok c r) /\
  (forall req sel hc r, In (EvDo hc r) (ChatCompletionStream rt c req sel) -> headers_ok c r).
Proof.
  intros rt c. split.
  - intros call hc r Hin.
    destruct call; cbn [run_call is_probe] in *;
      apply sync_call_do in Hin; destruct Hin as [_ [hreq [Hreq ->]]];
      apply NewRequestWithContext_header in Hreq;
      first [exact Hreq | apply setHeaders_ok; exact Hreq].
  - intros req sel hc r Hin. apply stream_do in Hin.
    destruct Hin as [_ [body [hreq [_ [Hreq ->]]]]].
    apply setHeaders_ok. eapply NewRequestWithContext_header; exact Hreq.
Qed.

Lemma request_headers_set_witness :
  headers_ok demo_client (setHeaders demo_client demo_chat_request) /\
  HttpRequest.Header
    {| HttpRequest.Method := "GET"; HttpRequest.URL := "http://localhost:8080/ready";
       HttpRequest.Header := []; HttpRequest.Body := None |} = [].
Proof.
  destruct (request_headers_set (demo_rt resp_500_text) demo_client) as [Hsync Hstream].
  split.
  - apply (Hstream demo_req [] zero_http_client). vm_compute. left. reflexivity.
  - apply (Hsync Ready (Client.httpClient demo_client)). vm_compute. left. reflexivity.
Defined.

(** C10: the streaming call issues its one request through a fresh
    zero-valued [http.Client{}] (no transport, timeout 0), so the client
    installed by [WithHTTPClient] has no effect on it, while every
    synchronous method goes through the client's configured [httpClient]. *)
Theorem stream_uses_fresh_client : forall rt c,
  (forall req sel hc r, In (EvDo hc r) (ChatCompletionStream rt c req sel) ->
     hc = zero_http_client /\ HttpClient.Timeout hc = 0%Z) /\
  (forall hc' req sel,
     ChatCompletionStream rt (WithHTTPClient c hc') req sel = ChatCompletionStream rt c req sel) /\
  (forall call hc r, In (EvDo hc r) (fst (run_call rt c call)) -> hc = Client.httpClient c).
Proof.
  intros rt c. split; [|split].
  - intros req sel hc r Hin. apply stream_do in Hin. destruct Hin as [-> _].
    split; reflexivity.
  - intros hc' req sel. reflexivity.
  - intros call hc r Hin.
    destruct call; cbn [run_call] in Hin; apply sync_call_do in Hin; exact (proj1 Hin).
Qed.

(** A client configured with a ten-minute timeout and its own transport. *)
Definition custom_http_client : HttpClient.t :=
  {| HttpClient.Transport := Some "proxy"%string; HttpClient.Timeout := 600000000000 |}.

Definition custom_client : Client.t := WithHTTPClient demo_client custom_http_client.

Lemma stream_uses_fresh_client_witness :
  (zero_http_client = zero_http_client /\ HttpClient.Timeout zero_http_client = 0%Z) /\
  ChatCompletionStream (demo_rt resp_500_text) custom_client demo_req []
  = ChatCompletionStream (demo_rt resp_500_text) demo_client demo_req [] /\
  custom_http_client = Client.httpClient custom_client.
Proof.
  destruct (stream_uses_fresh_client (demo_rt resp_500_text) custom_client) as [Hs [Hw Hc]].
  split; [|split].
  - apply (Hs demo_req [] zero_http_client (setHeaders custom_client demo_chat_request)).
    vm_compute. left. reflexivity.
  - destruct (stream_uses_fresh_client (demo_rt resp_500_text) demo_client) as [_ [Hw' _]].
    apply Hw'.
  - apply (Hc ListModels custom_http_client
             (setHeaders custom_client
                {| HttpRequest.Method := "GET"; HttpRequest.URL := "http://localhost:8080/v1/models";
                   HttpRequest.Header := []; HttpRequest.Body := None |})).
    vm_compute. left. reflexivity.
Defined.

(* ------------------------------------------------------------------ *)
(** * Further properties of the client *)

(** ** NewClient and [strings.TrimRight] *)

Fixpoint drop_slashes (l : list ascii) : list ascii :=
  match l with
  | "/"%char :: l' => drop_slashes l'
  | _ => l
  end.

Definition slashes (n : nat) : string := string_of_list_ascii (repeat "/"%char n).

Definition ends_with_slash (s : string) : bool :=
  match rev (list_ascii_of_string s) with
  | c :: _ => Ascii.eqb c "/"%char
  | [] => false
  end.

Lemma trim_right_slash_drop : forall s,
  trim_right_slash s = string_of_list_ascii (rev (drop_slashes (rev (list_ascii_of_string s)))).
Proof. reflexivity. Qed.

Lemma drop_slashes_spec : forall l,
  exists n, l = repeat "/"%char n ++ drop_slashes l /\
            match drop_slashes l with c :: _ => c <> "/"%char | [] => True end.
Proof.
  induction l as [|c l IH]; [exists 0%nat; simpl; auto|].
  destruct (Ascii.eqb_spec c "/"%char) as [->|Hc].
  - destruct IH as [n [Hn Hd]]. exists (S n). simpl. rewrite <- Hn. auto.
  - exists 0%nat. assert (E : drop_slashes (c :: l) = c :: l).
    { destruct c as [[] [] [] [] [] [] [] []]; try reflexivity; contradiction. }
    rewrite E. simpl. auto.
Qed.

Lemma string_of_list_ascii_app : forall a b,
  string_of_list_ascii (a ++ b) = (string_of_list_ascii a ++ string_of_list_ascii b)%string.
Proof. induction a as [|x a IH]; intros b; simpl; [reflexivity|]. rewrite IH. reflexivity. Qed.

Lemma list_ascii_of_string_app : forall s t,
  list_ascii_of_string (s ++ t) = list_ascii_of_string s ++ list_ascii_of_string t.
Proof. induction s as [|x s IH]; intros t; simpl; [reflexivity|]. rewrite IH. reflexivity. Qed.

Lemma repeat_rev : forall (x : ascii) n, rev (repeat x n) = repeat x n.
Proof.
  induction n as [|n IH]; [reflexivity|].
  change (repeat x (S n)) with ([x] ++ repeat x n) at 1.
  rewrite rev_app_distr, IH. simpl.
  clear IH. induction n as [|n IH]; [reflexivity|]. simpl. rewrite IH. reflexivity.
Qed.

Lemma drop_slashes_app_slashes : forall n l,
  drop_slashes (repeat "/"%char n ++ l) = drop_slashes l.
Proof. induction n as [|n IH]; intros l; [reflexivity|]. simpl. apply IH. Qed.

(** X1: [NewClient] stores the base URL with exactly its trailing slashes
    removed: the stored URL does not end in a slash, and the given URL is
    the stored one followed by some number of slashes. *)
Theorem NewClient_trims_trailing_slashes : forall baseURL apiKey,
  let u := Client.baseURL (NewClient baseURL apiKey) in
  ends_with_slash u = false /\ exists n, baseURL = (u ++ slashes n)%string.
Proof.
  intros b k. cbv zeta. cbn [NewClient Client.baseURL]. rewrite trim_right_slash_drop.
  destruct (drop_slashes_spec (rev (list_ascii_of_string b))) as [n [Hn Hd]].
  split.
  - unfold ends_with_slash. rewrite list_ascii_of_string_of_list_ascii, rev_involutive.
    destruct (drop_slashes _) as [|c r]; [reflexivity|].
    apply Ascii.eqb_neq. exact Hd.
  - exists n. unfold slashes. rewrite <- string_of_list_ascii_app.
    rewrite <- (repeat_rev "/"%char n). rewrite <- rev_app_distr, <- Hn, rev_involutive.
    symmetry. apply string_of_list_ascii_of_string.
Qed.

(** X2: clients built from the same base URL with any number of extra
    trailing slashes are the same client, so they issue the same requests. *)
Theorem NewClient_slash_insensitive : forall baseURL apiKey n,
  NewClient (baseURL ++ slashes n) apiKey = NewClient baseURL apiKey.
Proof.
  intros b k n. unfold NewClient. f_equal. rewrite !trim_right_slash_drop.
  rewrite list_ascii_of_string_app. unfold slashes.
  rewrite list_ascii_of_string_of_list_ascii, rev_app_distr, repeat_rev,
    drop_slashes_app_slashes.
  reflexivity.
Qed.

(** ** The synchronous methods *)

Lemma sync_call_outcomes_gen : forall rt c m p mb wh ok,
  let hc := Client.httpClient c in
  let out := sync_call rt c m p mb wh ok in
  (fst out = [] /\ exists e, snd out = CallErr (Wrapped "marshal request" e)
                            \/ snd out = CallErr (Wrapped "create request" e)) \/
  (exists r e, http_do rt hc r = Err e /\ fst out = [EvDo hc r] /\
     snd out = CallErr (Wrapped "send request" e)) \/
  (exists r resp, http_do rt hc r = Ok resp /\
     fst out = [EvDo hc r; EvReadAll; EvCloseBody] /\
     snd out = CallErr (ApiErr (parseError rt resp))) \/
  (exists r resp, http_do rt hc r = Ok resp /\ fst out = [EvDo hc r; EvCloseBody] /\
     (snd out = CallOk (read_all (Response.Body resp)) \/
      exists e, snd out = CallErr (Wrapped "decode response" e))).
Proof.
  intros rt c m p mb wh ok. cbv zeta. unfold sync_call.
  destruct mb as [[b|e]|].
  3: destruct (NewRequestWithContext rt m _ None) as [hreq|e].
  1: destruct (NewRequestWithContext rt m _ (Some b)) as [hreq|e].
  2: { left. split; [reflexivity|]. eexists; right; reflexivity. }
  2: { left. split; [reflexivity|]. eexists; left; reflexivity. }
  2: destruct (http_do rt _ (if wh then setHeaders c hreq else hreq)) as [resp|e] eqn:Hd.
  1: destruct (http_do rt _ (if wh then setHeaders c hreq else hreq)) as [resp|e] eqn:Hd.
  all: try (left; split; [reflexivity|]; eexists; right; reflexivity).
  all: try (right; left; do 2 eexists; split; [exact Hd|]; split; reflexivity).
  all: destruct (existsb _ ok); [destruct (json_decode_error rt _)|].
  all: first
    [ solve [right; right; right; do 2 eexists; split; [exact Hd|]; split; [reflexivity|];
             right; eexists; reflexivity]
    | solve [right; right; right; do 2 eexists; split; [exact Hd|]; split; [reflexivity|];
             left; reflexivity]
    | solve [right; right; left; do 2 eexists; split; [exact Hd|]; split; reflexivity] ].
Qed.

(** X3: every synchronous method ends in one of four ways. It fails
    while building the request and sends nothing. Or the round trip fails:
    one request, no response body to close. Or the status is not accepted:
    one request, the body read in full and closed, and the APIError of
    [parseError]. Or the status is accepted: one request, the body closed
    once, and the decoded body or a decode error. *)
Theorem sync_call_outcomes : forall rt c call,
  let hc := Client.httpClient c in
  let out := run_call rt c call in
  (fst out = [] /\ exists e, snd out = CallErr (Wrapped "marshal request" e)
                            \/ snd out = CallErr (Wrapped "create request" e)) \/
  (exists r e, http_do rt hc r = Err e /\ fst out = [EvDo hc r] /\
     snd out = CallErr (Wrapped "send request" e)) \/
  (exists r resp, http_do rt hc r = Ok resp /\
     fst out = [EvDo hc r; EvReadAll; EvCloseBody] /\
     snd out = CallErr (ApiErr (parseError rt resp))) \/
  (exists r resp, http_do rt hc r = Ok resp /\ fst out = [EvDo hc r; EvCloseBody] /\
     (snd out = CallOk (read_all (Response.Body resp)) \/
      exists e, snd out = CallErr (Wrapped "decode response" e))).
Proof. intros rt c call. destruct call; apply sync_call_outcomes_gen. Qed.

(** The statuses each method accepts, as its Go body tests them. *)
Definition success_statuses (call : ApiCall) : list Z :=
  match call with
  | Health | Ready => [200; 503]
  | UploadDocument _ | UploadDocuments _ => [202; 200]
  | _ => [200]
  end.

Lemma existsb_Z_eqb_In : forall s l, existsb (Z.eqb s) l = true <-> In s l.
Proof.
  intros s l. rewrite existsb_exists. split.
  - intros [x [Hx Hs]]. apply Z.eqb_eq in Hs. subst. exact Hx.
  - intros H. exists s. split; [exact H|apply Z.eqb_refl].
Qed.

Lemma sync_call_status_gen : forall rt c m p mb wh ok hc r resp,
  In (EvDo hc r) (fst (sync_call rt c m p mb wh ok)) ->
  http_do rt hc r = Ok resp ->
  (snd (sync_call rt c m p mb wh ok) = CallErr (ApiErr (parseError rt resp))
   <-> ~ In (Response.StatusCode resp) ok).
Proof.
  intros rt c m p mb wh ok hc r resp Hin Hresp. revert Hin. unfold sync_call.
  destruct mb as [[b|e]|].
  all: try solve [intros []].
  all: destruct (NewRequestWithContext rt m _ _) as [hreq|e].
  all: try solve [intros []].
  all: destruct (http_do rt (Client.httpClient c) (if wh then setHeaders c hreq else hreq)) as [resp'|e] eqn:Hd.
  all: try destruct (existsb (Z.eqb (Response.StatusCode resp')) ok) eqn:Hx.
  all: try destruct (json_decode_error rt _).
  all: intros Hin; simpl in Hin;
       repeat match goal with H : _ \/ _ |- _ => destruct H as [H|H] end;
       try discriminate; try contradiction.
  all: match goal with H : EvDo _ _ = EvDo _ _ |- _ => injection H as H1 H2 end; subst.
  all: rewrite Hd in Hresp; try discriminate.
  all: injection Hresp as ->.
  all: cbn [snd]; split.
  all: first
    [ solve [intros H; discriminate H]
    | solve [intros _; reflexivity]
    | solve [intros Hn; exfalso; apply Hn, existsb_Z_eqb_In; exact Hx]
    | solve [intros _ Hn; apply existsb_Z_eqb_In in Hn; rewrite Hn in Hx; discriminate Hx] ].
Qed.

(** X4: once a synchronous method has sent its request and received a
    response, it returns the APIError of [parseError] exactly when the
    status is not one it accepts: 200 for most methods, 200 and 503 for
    Health and Ready, 202 and 200 for the two document uploads. *)
Theorem sync_call_status : forall rt c call hc r resp,
  In (EvDo hc r) (fst (run_call rt c call)) ->
  http_do rt hc r = Ok resp ->
  (snd (run_call rt c call) = CallErr (ApiErr (parseError rt resp))
   <-> ~ In (Response.StatusCode resp) (success_statuses call)).
Proof. intros rt c call. destruct call; apply sync_call_status_gen. Qed.

Definition resp_503 : Response.t :=
  {| Response.StatusCode := 503;
     Response.Body := {| RespBody.Lines := []; RespBody.Tail := "{}"; RespBody.End := ReadEOF |} |}.

Lemma sync_call_status_witness :
  snd (run_call (demo_rt resp_503) demo_client Health) <> CallErr (ApiErr (parseError (demo_rt resp_503) resp_503)) /\
  snd (run_call (demo_rt resp_503) demo_client ListModels) = CallErr (ApiErr (parseError (demo_rt resp_503) resp_503)).
Proof.
  split.
  - intros H.
    apply (sync_call_status (demo_rt resp_503) demo_client Health (Client.httpClient demo_client)
             {| HttpRequest.Method := "GET"; HttpRequest.URL := "http://localhost:8080/health";
                HttpRequest.Header := []; HttpRequest.Body := None |} resp_503) in H;
      [ apply H; simpl; auto | vm_compute; left; reflexivity | reflexivity ].
  - apply (sync_call_status (demo_rt resp_503) demo_client ListModels (Client.httpClient demo_client)
             (setHeaders demo_client
                {| HttpRequest.Method := "GET"; HttpRequest.URL := "http://localhost:8080/v1/models";
                   HttpRequest.Header := []; HttpRequest.Body := None |}) resp_503);
      [ vm_compute; left; reflexivity | reflexivity | simpl; intros [H|[]]; discriminate ].
Defined.

Lemma set_stream_set_stream : forall b b' r, set_stream b (set_stream b' r) = set_stream b r.
Proof. intros b b' r. reflexivity. Qed.

(** X5: the caller's [Stream] field never matters: ChatCompletion always
    sends the request with [Stream = false] and ChatCompletionStream with
    [Stream = true], so both behave the same whatever the field held. *)
Theorem chat_stream_flag_overridden : forall rt c req b sel,
  run_call rt c (ChatCompletion (set_stream b req)) = run_call rt c (ChatCompletion req) /\
  ChatCompletionStream rt c (set_stream b req) sel = ChatCompletionStream rt c req sel.
Proof. intros rt c req b sel. split; reflexivity. Qed.

(** [func (e *APIError) Error() string] *)
Definition APIError_Error (e : APIError.t) : string :=
  ErrorDetail.Message (ErrorResponse.Error (APIError.ErrorBody e)).

(** X6: when the body of a rejected response is not a JSON error envelope,
    the message of the resulting error ([err.Error()]) is the whole body
    text, and it is empty for an empty body. *)
Theorem parseError_message_raw_body : forall rt resp,
  json_unmarshal_error rt (read_all (Response.Body resp)) = None ->
  APIError_Error (parseError rt resp) = read_all (Response.Body resp) /\
  (read_all (Response.Body resp) = ""%string -> APIError_Error (parseError rt resp) = ""%string).
Proof.
  intros rt resp H. unfold APIError_Error, parseError. rewrite H. cbn.
  split; [reflexivity|intros E; exact E].
Qed.

Definition resp_500_empty : Response.t :=
  {| Response.StatusCode := 500;
     Response.Body := {| RespBody.Lines := []; RespBody.Tail := ""; RespBody.End := ReadEOF |} |}.

Lemma parseError_message_raw_body_witness :
  APIError_Error (parseError (demo_rt resp_500_empty) resp_500_empty) = ""%string.
Proof.
  apply (parseError_message_raw_body (demo_rt resp_500_empty) resp_500_empty); reflexivity.
Defined.

(** ** The streaming call before a response, and the scanner *)

(** X7: a streaming call that fails before it has a response sends exactly
    one error and closes both channels, with no frame and no body to
    close. A failure to marshal or to build the request sends no request
    at all. *)
Theorem stream_fails_before_response : forall rt c req sel,
  (forall e, json_marshal rt (set_stream true req) = Err e ->
     ChatCompletionStream rt c req sel
     = [EvSendErr (Wrapped "marshal request" e); EvCloseErrs; EvCloseChunks]) /\
  (forall body e, json_marshal rt (set_stream true req) = Ok body ->
     NewRequestWithContext rt "POST" (Client.baseURL c ++ "/v1/chat/completions")%string
       (Some body) = Err e ->
     ChatCompletionStream rt c req sel
     = [EvSendErr (Wrapped "create request" e); EvCloseErrs; EvCloseChunks]) /\
  (forall body hreq e, json_marshal rt (set_stream true req) = Ok body ->
     NewRequestWithContext rt "POST" (Client.baseURL c ++ "/v1/chat/completions")%string
       (Some body) = Ok hreq ->
     http_do rt zero_http_client (setHeaders c hreq) = Err e ->
     ChatCompletionStream rt c req sel
     = [EvDo zero_http_client (setHeaders c hreq); EvSendErr (Wrapped "send request" e);
        EvCloseErrs; EvCloseChunks]).
Proof.
  intros rt c req sel. unfold ChatCompletionStream. cbv zeta. split; [|split].
  - intros e Hm. rewrite Hm. reflexivity.
  - intros body e Hm Hr. rewrite Hm, Hr. reflexivity.
  - intros body hreq e Hm Hr Hd. rewrite Hm, Hr, Hd. reflexivity.
Qed.

Definition marshal_fail_rt : Runtime :=
  {| json_marshal := fun _ => Err "json: unsupported value"%string;
     json_unmarshal_chunk := json_min_chunk;
     json_unmarshal_error := fun _ => None;
     json_decode_error := fun _ => None;
     url_error := fun _ => None;
     http_do := fun _ _ => Ok resp_500_empty |}.

Definition url_fail_rt : Runtime :=
  {| json_marshal := fun _ => Ok "{}"%string;
     json_unmarshal_chunk := json_min_chunk;
     json_unmarshal_error := fun _ => None;
     json_decode_error := fun _ => None;
     url_error := fun _ => Some "parse: invalid URL"%string;
     http_do := fun _ _ => Ok resp_500_empty |}.

Definition refused_rt : Runtime :=
  {| json_marshal := fun _ => Ok "{}"%string;
     json_unmarshal_chunk := json_min_chunk;
     json_unmarshal_error := fun _ => None;
     json_decode_error := fun _ => None;
     url_error := fun _ => None;
     http_do := fun _ _ => Err "dial tcp: connection refused"%string |}.

Lemma stream_fails_before_response_witness :
  ChatCompletionStream marshal_fail_rt demo_client demo_req []
  = [EvSendErr (Wrapped "marshal request" "json: unsupported value"); EvCloseErrs; EvCloseChunks] /\
  ChatCompletionStream url_fail_rt demo_client demo_req []
  = [EvSendErr (Wrapped "create request" "parse: invalid URL"); EvCloseErrs; EvCloseChunks] /\
  ChatCompletionStream refused_rt demo_client demo_req []
  = [EvDo zero_http_client (setHeaders demo_client demo_chat_request);
     EvSendErr (Wrapped "send request" "dial tcp: connection refused");
     EvCloseErrs; EvCloseChunks].
Proof.
  split; [|split].
  - apply (proj1 (stream_fails_before_response marshal_fail_rt demo_client demo_req [])).
    reflexivity.
  - apply (proj1 (proj2 (stream_fails_before_response url_fail_rt demo_client demo_req [])) "{}"%string);
      reflexivity.
  - apply (proj2 (proj2 (stream_fails_before_response refused_rt demo_client demo_req []))
             "{}"%string demo_chat_request); reflexivity.
Defined.

(** X8: a line that does not fit the scanner's 1 MiB buffer ends the scan
    with [bufio.ErrTooLong]: the lines before it are returned, the line
    itself and everything after it never are. *)
Theorem scan_stops_at_long_line : forall pre l post tail e,
  Forall fits_buffer pre ->
  maxTokenSize < Z.of_nat (String.length l) + 1 ->
  scan_tokens (pre ++ l :: post) tail e = (map drop_cr pre, Some err_too_long).
Proof.
  intros pre l post tail e Hpre Hl. rewrite scan_tokens_fits by exact Hpre. simpl.
  destruct (Z.leb_spec (Z.of_nat (String.length l) + 1) maxTokenSize); [lia|].
  simpl. rewrite app_nil_r. reflexivity.
Qed.

Lemma length_string_of_list_ascii : forall l,
  String.length (string_of_list_ascii l) = List.length l.
Proof. induction l as [|x l IH]; simpl; congruence. Qed.

(** A line of exactly 1 MiB: with its '\n' it does not fit the buffer. *)
Definition long_line : string := string_of_list_ascii (repeat "a"%char (Z.to_nat maxTokenSize)).

Lemma scan_stops_at_long_line_witness :
  scan_tokens [data_line "{}"; long_line; data_line "[DONE]"] "" ReadEOF
  = ([data_line "{}"], Some err_too_long).
Proof.
  apply (scan_stops_at_long_line [data_line "{}"] long_line [data_line "[DONE]"] "" ReadEOF).
  - repeat constructor. unfold fits_buffer. vm_compute. discriminate.
  - unfold long_line. rewrite length_string_of_list_ascii, repeat_length.
    rewrite Z2Nat.id by (unfold maxTokenSize; lia). lia.
Defined.

(** A line followed by '\r' (the line of a CRLF stream). *)
Definition add_cr (l : string) : string := (l ++ String "013"%char EmptyString)%string.

Lemma drop_cr_add_cr : forall l, drop_cr (add_cr l) = l.
Proof.
  intros l. unfold drop_cr, add_cr. rewrite list_ascii_of_string_app. simpl.
  rewrite rev_app_distr. simpl. rewrite rev_involutive. apply string_of_list_ascii_of_string.
Qed.

Lemma length_add_cr : forall l, String.length (add_cr l) = S (String.length l).
Proof.
  intros l. unfold add_cr. induction l as [|x l IH]; simpl; congruence.
Qed.

(** X9: for lines terminated by CR LF the scanner returns each line
    without its '\r', provided the line with both bytes fits the buffer. *)
Theorem scan_crlf_lines : forall lines tail e,
  Forall (fun l => Z.of_nat (String.length l) + 2 <= maxTokenSize) lines ->
  scan_tokens (map add_cr lines) tail e
  = (lines ++ fst (scan_tokens [] tail e), snd (scan_tokens [] tail e)).
Proof.
  induction lines as [|l ls IH]; intros tail e H; simpl map.
  - simpl. destruct (Z.of_nat (String.length tail) <? maxTokenSize); reflexivity.
  - inversion H as [|? ? Hl Hls]; subst.
    cbn [scan_tokens]. rewrite length_add_cr.
    destruct (Z.leb_spec (Z.of_nat (S (String.length l)) + 1) maxTokenSize); [|lia].
    rewrite (IH tail e Hls), drop_cr_add_cr. reflexivity.
Qed.

Lemma scan_crlf_lines_witness :
  scan_tokens (map add_cr [data_line "{}"; ""%string; data_line "[DONE]"]) "" ReadEOF
  = ([data_line "{}"; ""%string; data_line "[DONE]"], None).
Proof.
  apply (scan_crlf_lines [data_line "{}"; ""%string; data_line "[DONE]"] "" ReadEOF).
  repeat constructor; vm_compute; discriminate.
Defined.

(** ** The streaming loop after a 200 response *)

Lemma has_prefix_app_inv : forall s p, has_prefix s p = true -> exists r, s = (p ++ r)%string.
Proof.
  intros s p; revert s. induction p as [|x p IH]; intros s H.
  - exists s. reflexivity.
  - destruct s as [|y s]; [discriminate|].
    change (Ascii.eqb x y && has_prefix s p = true) in H. apply andb_true_iff in H as [Hxy Hs].
    apply Ascii.eqb_eq in Hxy. subst y. destruct (IH s Hs) as [r ->]. exists r. reflexivity.
Qed.

Lemma has_prefix_app_self : forall p r, has_prefix (p ++ r) p = true.
Proof.
  induction p as [|x p IH]; intros r; [reflexivity|].
  change (Ascii.eqb x x && has_prefix (p ++ r) p = true). rewrite Ascii.eqb_refl. apply IH.
Qed.

Lemma substring_app_prefix : forall p r n,
  substring (String.length p) n (p ++ r) = substring 0 n r.
Proof. induction p as [|x p IH]; intros r n; [reflexivity|]. simpl. apply IH. Qed.

Lemma length_string_app : forall p r,
  String.length (p ++ r) = (String.length p + String.length r)%nat.
Proof. induction p as [|x p IH]; intros r; simpl; [reflexivity|]. rewrite IH. reflexivity. Qed.

Lemma trim_prefix_app : forall p r, trim_prefix (p ++ r) p = r.
Proof.
  intros p r. unfold trim_prefix. rewrite has_prefix_app_self.
  rewrite length_string_app, Nat.add_comm, Nat.add_sub, substring_app_prefix.
  apply substring_0_length.
Qed.

(** The loop recognises the sentinel on exactly one line. *)
Lemma sentinel_line_eq : forall l,
  has_prefix l "data: " = true -> trim_prefix l "data: " = "[DONE]"%string ->
  l = "data: [DONE]"%string.
Proof.
  intros l Hp Ht. destruct (has_prefix_app_inv l "data: " Hp) as [r ->].
  rewrite trim_prefix_app in Ht. subst r. reflexivity.
Qed.

Lemma stream_loop_ends : forall rt toks sel,
  ~ In "data: [DONE]"%string toks -> Forall (eq SendWins) sel ->
  snd (stream_loop rt toks sel) = LoopEnded.
Proof.
  intros rt toks; induction toks as [|l r IH]; intros sel Hn Hsel; [reflexivity|].
  assert (Hr : ~ In "data: [DONE]"%string r) by (intros H; apply Hn; right; exact H).
  simpl. destruct (String.eqb l "") eqn:El; [apply IH; assumption|].
  destruct (has_prefix l "data: ") eqn:Ep; simpl; [|apply IH; assumption].
  destruct (String.eqb (trim_prefix l "data: ") "[DONE]") eqn:Ed.
  - apply String.eqb_eq in Ed. exfalso. apply Hn. left.
    apply sentinel_line_eq; assumption.
  - destruct (json_unmarshal_chunk rt (trim_prefix l "data: ")); [|apply IH; assumption].
    destruct (next_select_send sel Hsel) as (sel' & -> & Hsel'). simpl. apply IH; assumption.
Qed.

Lemma stream_loop_no_send_err : forall rt toks sel,
  existsb is_send_err (fst (stream_loop rt toks sel)) = false.
Proof.
  intros rt toks sel.
  pose proof (stream_loop_events_ok rt toks sel) as Hok.
  apply loop_events_split in Hok as [_ Hse]. apply existsb_filter_nil. exact Hse.
Qed.

(** X10: when the scanner stops on an error (a read error, or a line too
    long for its buffer) before any sentinel line, and the caller does not
    cancel, the task delivers the frames of the lines scanned so far and
    then sends that error, wrapped as [read stream], as its only error,
    just before closing the body and the channels. *)
Theorem stream_read_error_last : forall rt c req sel body hreq resp toks e,
  json_marshal rt (set_stream true req) = Ok body ->
  NewRequestWithContext rt "POST" (Client.baseURL c ++ "/v1/chat/completions")%string
    (Some body) = Ok hreq ->
  http_do rt zero_http_client (setHeaders c hreq) = Ok resp ->
  Response.StatusCode resp = 200 ->
  scan (Response.Body resp) = (toks, Some e) ->
  ~ In "data: [DONE]"%string toks ->
  Forall (eq SendWins) sel ->
  exists evs,
    ChatCompletionStream rt c req sel
    = evs ++ [EvSendErr (Wrapped "read stream" e); EvCloseBody; EvCloseErrs; EvCloseChunks] /\
    existsb is_send_err evs = false /\
    delivered evs = wire_frames (json_unmarshal_chunk rt) toks.
Proof.
  intros rt c req sel body hreq resp toks e Hm Hr Hd Hs Hscan Hn Hsel.
  rewrite (stream_ok_trace rt c req sel body hreq resp Hm Hr Hd Hs), Hscan. cbn [fst snd].
  rewrite (stream_loop_ends rt toks sel Hn Hsel).
  exists (EvDo zero_http_client (setHeaders c hreq) :: fst (stream_loop rt toks sel)).
  split; [|split].
  - simpl. rewrite <- app_assoc. reflexivity.
  - simpl. apply stream_loop_no_send_err.
  - simpl. apply stream_loop_delivers_wire_frames. exact Hsel.
Qed.

Definition reset_response : Response.t :=
  {| Response.StatusCode := 200;
     Response.Body := {| RespBody.Lines := [data_line (delta_frame "Hello")];
                         RespBody.Tail := "";
                         RespBody.End := ReadFail "connection reset by peer" |} |}.

Lemma stream_read_error_last_witness :
  exists evs,
    ChatCompletionStream (demo_rt reset_response) demo_client demo_req []
    = evs ++ [EvSendErr (Wrapped "read stream" "connection reset by peer");
              EvCloseBody; EvCloseErrs; EvCloseChunks] /\
    existsb is_send_err evs = false /\
    delivered evs = [delta_chunk "Hello"].
Proof.
  destruct (stream_read_error_last (demo_rt reset_response) demo_client demo_req []
              "{}"%string demo_chat_request reset_response
              [data_line (delta_frame "Hello")] "connection reset by peer")
    as (evs & H1 & H2 & H3);
    [reflexivity | reflexivity | reflexivity | reflexivity | vm_compute; reflexivity
    | vm_compute; intros [H|[]]; discriminate H | constructor | ].
  exists evs. split; [exact H1|]. split; [exact H2|]. rewrite H3. vm_compute. reflexivity.
Defined.

(** X11: a 200 stream whose body is read to EOF without a line too long
    for the buffer never sends an error, whether or not it carried the
    sentinel: a stream cut short at a line boundary ends like a complete
    one. *)
Theorem stream_eof_no_error : forall rt c req sel body hreq resp,
  json_marshal rt (set_stream true req) = Ok body ->
  NewRequestWithContext rt "POST" (Client.baseURL c ++ "/v1/chat/completions")%string
    (Some body) = Ok hreq ->
  http_do rt zero_http_client (setHeaders c hreq) = Ok resp ->
  Response.StatusCode resp = 200 ->
  RespBody.End (Response.Body resp) = ReadEOF ->
  Forall fits_buffer (RespBody.Lines (Response.Body resp)) ->
  Z.of_nat (String.length (RespBody.Tail (Response.Body resp))) < maxTokenSize ->
  existsb is_send_err (ChatCompletionStream rt c req sel) = false.
Proof.
  intros rt c req sel body hreq resp Hm Hr Hd Hs He Hl Ht.
  assert (Hsn : snd (scan (Response.Body resp)) = None).
  { unfold scan. rewrite <- (app_nil_r (RespBody.Lines _)), scan_tokens_fits by exact Hl.
    cbn [snd scan_tokens]. destruct (Z.ltb_spec (Z.of_nat (String.length (RespBody.Tail (Response.Body resp)))) maxTokenSize); [|lia].
    rewrite He. reflexivity. }
  rewrite (stream_ok_trace rt c req sel body hreq resp Hm Hr Hd Hs), Hsn.
  assert (Hx : forall ex, match ex, @None string with
                          | LoopEnded, Some e => [EvSendErr (Wrapped "read stream" e)]
                          | _, _ => []
                          end = []) by (intros []; reflexivity).
  rewrite Hx, app_nil_r. simpl. rewrite existsb_app, stream_loop_no_send_err. reflexivity.
Qed.

Definition truncated_lines : list string := [data_line (delta_frame "Hello"); ""%string].

Lemma stream_eof_no_error_witness :
  existsb is_send_err
    (ChatCompletionStream (demo_rt (ok_response truncated_lines)) demo_client demo_req []) = false.
Proof.
  apply (stream_eof_no_error (demo_rt (ok_response truncated_lines)) demo_client demo_req []
           "{}"%string demo_chat_request (ok_response truncated_lines));
    [reflexivity | reflexivity | reflexivity | reflexivity | reflexivity
    | repeat constructor; fits | vm_compute; reflexivity].
Defined.

Definition not_scan (e : event) : bool :=
  match e with EvScan _ => false | _ => true end.

Definition is_data_line (l : string) : bool := has_prefix l "data: ".

(** X12: lines that do not start with [data: ] (blank separators,
    [event:], [id:] or comment lines, and [data:] without the space) only
    cost a scan: dropping them from the scanned lines changes neither the
    loop's other actions nor how it ends. *)
Theorem stream_loop_ignores_non_data : forall rt toks sel,
  filter not_scan (fst (stream_loop rt toks sel))
  = filter not_scan (fst (stream_loop rt (filter is_data_line toks) sel)) /\
  snd (stream_loop rt toks sel) = snd (stream_loop rt (filter is_data_line toks) sel).
Proof.
  intros rt toks; induction toks as [|l r IH]; intros sel; [split; reflexivity|].
  cbn [filter]. change (is_data_line l) with (has_prefix l "data: ").
  destruct (has_prefix l "data: ") eqn:Ep.
  - assert (El : String.eqb l "" = false).
    { destruct l; [discriminate Ep|reflexivity]. }
    cbn [stream_loop]. rewrite El, Ep. cbn [negb cons_ev fst snd filter not_scan].
    destruct (String.eqb (trim_prefix l "data: ") "[DONE]"); [split; reflexivity|].
    destruct (json_unmarshal_chunk rt (trim_prefix l "data: ")); [|apply IH].
    destruct (next_select sel) as [[|] sel']; [|split; reflexivity].
    cbn [cons_ev fst snd filter not_scan]. destruct (IH sel') as [H1 H2].
    rewrite H1, H2. split; reflexivity.
  - cbn [stream_loop]. rewrite Ep.
    destruct (String.eqb l ""); cbn [negb cons_ev fst snd filter not_scan]; apply IH.
Qed.

Lemma stream_loop_sentinel_cut : forall rt pre post sel,
  stream_loop rt (pre ++ "data: [DONE]"%string :: post) sel
  = stream_loop rt (pre ++ ["data: [DONE]"%string]) sel.
Proof.
  intros rt pre; induction pre as [|l r IH]; intros post sel; [reflexivity|].
  cbn [app stream_loop]. loop_cases; rewrite ?IH; reflexivity.
Qed.

(** X13: a 200 stream whose body has the sentinel line after lines that
    fit the buffer behaves the same whatever follows the sentinel (more
    lines, an over-long line, a read error): its actions are determined by
    the lines up to the sentinel, and it ends by closing the body and the
    channels without an error. *)
Theorem stream_ignores_after_sentinel : forall rt c req sel body hreq resp pre post,
  json_marshal rt (set_stream true req) = Ok body ->
  NewRequestWithContext rt "POST" (Client.baseURL c ++ "/v1/chat/completions")%string
    (Some body) = Ok hreq ->
  http_do rt zero_http_client (setHeaders c hreq) = Ok resp ->
  Response.StatusCode resp = 200 ->
  RespBody.Lines (Response.Body resp) = pre ++ "data: [DONE]"%string :: post ->
  Forall fits_buffer pre ->
  ChatCompletionStream rt c req sel
  = EvDo zero_http_client (setHeaders c hreq) ::
    fst (stream_loop rt (map drop_cr pre ++ ["data: [DONE]"%string]) sel) ++
    [EvCloseBody; EvCloseErrs; EvCloseChunks].
Proof.
  intros rt c req sel body hreq resp pre post Hm Hr Hd Hs Hl Hpre.
  rewrite (stream_ok_trace rt c req sel body hreq resp Hm Hr Hd Hs).
  unfold scan. rewrite Hl, scan_tokens_fits by exact Hpre. cbn [fst snd].
  rewrite scan_tokens_sentinel. cbn [fst snd].
  rewrite stream_loop_sentinel_cut.
  rewrite (stream_loop_sentinel_returns rt (map drop_cr pre) [] sel).
  rewrite app_nil_r. reflexivity.
Qed.

Definition after_sentinel_prefix : list string :=
  [data_line (delta_frame "Hello"); ""%string; data_line (delta_frame " world"); ""%string].

(** The sentinel followed by a line too long for the buffer and a read error. *)
Definition after_sentinel_response : Response.t :=
  {| Response.StatusCode := 200;
     Response.Body := {| RespBody.Lines := after_sentinel_prefix ++ [data_line "[DONE]"; long_line];
                         RespBody.Tail := "";
                         RespBody.End := ReadFail "unexpected EOF" |} |}.

Lemma stream_ignores_after_sentinel_witness :
  ChatCompletionStream (demo_rt after_sentinel_response) demo_client demo_req []
  = EvDo zero_http_client (setHeaders demo_client demo_chat_request) ::
    fst (stream_loop (demo_rt after_sentinel_response)
           (map drop_cr after_sentinel_prefix ++ ["data: [DONE]"%string]) []) ++
    [EvCloseBody; EvCloseErrs; EvCloseChunks].
Proof.
  apply (stream_ignores_after_sentinel (demo_rt after_sentinel_response) demo_client demo_req []
           "{}"%string demo_chat_request after_sentinel_response after_sentinel_prefix [long_line]);
    [reflexivity | reflexivity | reflexivity | reflexivity | reflexivity
    | repeat constructor; fits].
Defined.
